(** * Cherry-pick conflict resolution of the backport tool

    A shallow embedding of
    - [src/lib/cherrypickAndCreateTargetPullRequest/waitForCherrypick.ts]
      ([waitForCherrypick], [cherrypickAndHandleConflicts],
      [listConflictingAndUnstagedFiles]) and
    - [src/lib/github/v3/addLabelsToPullRequest.ts]
      ([addLabelsToPullRequest]).

    The TypeScript functions are [async] and talk to git, to the terminal,
    to the user and to the GitHub API.  They are embedded as computations
    in a small monad that threads the state of the outside world, records
    every interaction with a collaborator as an event, and carries thrown
    exceptions.  The collaborators themselves (the imports that are not
    part of these two files) are the fields of an environment record. *)

From Stdlib Require Import String Ascii List Bool Arith Lia DecimalString.
From Equations Require Import Equations.
Import ListNotations.

Set Implicit Arguments.
Set Default Goal Selector "!".

Local Open Scope string_scope.
Local Open Scope list_scope.

(** ** JavaScript and lodash helpers *)

Module Js.

(** The character written ['\n'] in the source. *)
Definition nl : string := String (ascii_of_nat 10) EmptyString.

(** [Array.prototype.join]. *)
Definition join (sep : string) (xs : list string) : string :=
  String.concat sep xs.

(** [Array.prototype.slice(0, n)]. *)
Definition slice0 {A : Type} (n : nat) (xs : list A) : list A := firstn n xs.

(** Truthiness of a string ([if (options.editor)]): the empty string is
    falsy. *)
Definition truthy (s : string) : bool :=
  match s with
  | String _ _ => true
  | EmptyString => false
  end.

(** The double quote character. *)
Definition dquote : string := String (ascii_of_nat 34) EmptyString.

(** A non-negative integer inside a template literal, in decimal (what
    JavaScript prints for integers below 1e21). *)
Definition string_of_nat (n : nat) : string :=
  NilEmpty.string_of_uint (Nat.to_uint n).

End Js.

Module Lodash.

(** [_.isEmpty] on an array. *)
Definition isEmpty {A : Type} (xs : list A) : bool :=
  match xs with
  | [] => true
  | _ :: _ => false
  end.

(** [_.difference(array, values)] on arrays of strings: the elements of
    [array], in order, that do not occur in [values]. *)
Definition difference (array values : list string) : list string :=
  filter (fun x => negb (existsb (String.eqb x) values)) array.

End Lodash.

Infix "+++" := String.append (right associativity, at level 60).

(** ** Data *)

Record SourceCommit := {
  message : string;
  sha : string
}.

(** One entry of [commit.targetPullRequestStates]; [state] is the string
    the source compares with ['MERGED']. *)
Record TargetPullRequest := {
  state : string;
  branch : string
}.

Record Commit := {
  sourceCommit : SourceCommit;
  targetPullRequestStates : list TargetPullRequest
}.

Record CommitAuthor := {
  name : string;
  email : string
}.

(** An element of [ConflictingFiles]. *)
Record ConflictingFile := {
  absolute : string;
  relative : string
}.

Definition ConflictingFiles := list ConflictingFile.

(** What [cherrypick] resolves to. *)
Record CherrypickResult := {
  cr_conflictingFiles : ConflictingFiles;
  cr_unstagedFiles : list string;
  needsResolving : bool
}.

(** An element of the list [getCommitsWithoutBackports] resolves to. *)
Record CommitWithoutBackport := {
  formatted : string
}.

(** A spinner made by [ora(interactive, text)]. *)
Record Ora := {
  ora_interactive : bool;
  ora_text : string
}.

(** The client made by [new Octokit({ auth, baseUrl, log })]. *)
Record Octokit := {
  auth : string;
  baseUrl : string
}.

(** Thrown values.  The two [BackportError]s and the plain [Error] are the
    ones these files construct; [Thrown] stands for whatever a collaborator
    throws. *)
Inductive exn : Type :=
| BackportError_merge_conflict_exception
    (commitsWithoutBackports : list CommitWithoutBackport)
    (conflictingFiles : list string)
| BackportError_abort_conflict_resolution_exception
| Error (msg : string)
| Thrown (what : string).

(** Interactions with the collaborators, in the order they happen. *)
Inductive event : Type :=
| EvOraStart (spinner : Ora)
| EvSpinnerSucceed (spinner : Ora)
| EvSpinnerFail (spinner : Ora)
| EvCherrypick (sha : string) (mergedTargetPullRequest : option TargetPullRequest)
    (commitAuthor : CommitAuthor)
| EvAutoFixConflicts (files : list string) (directory targetBranch : string)
| EvGetCommitsWithoutBackports (targetBranch : string) (conflictingFiles : list string)
| EvConsoleLog (text : string)
| EvSpawn (command : string) (args : list string) (cwd : string)
| EvConfirmPrompt (text : string)
| EvGetConflictingFiles
| EvGetUnstagedFiles
| EvCommitChanges (commitAuthor : CommitAuthor)
| EvLoggerInfo (text : string)
| EvLoggerError (text : string) (e : exn)
| EvNewOctokit (client : Octokit)
| EvAddLabels (owner repo : string) (issue_number : nat) (labels : list string).

Definition is_confirm (ev : event) : bool :=
  match ev with EvConfirmPrompt _ => true | _ => false end.

Definition is_spawn (ev : event) : bool :=
  match ev with EvSpawn _ _ _ => true | _ => false end.

Definition is_hint_lookup (ev : event) : bool :=
  match ev with EvGetCommitsWithoutBackports _ _ => true | _ => false end.

Definition is_query (ev : event) : bool :=
  match ev with
  | EvGetConflictingFiles | EvGetUnstagedFiles => true
  | _ => false
  end.

(** The events through which the core acts on the working tree: the apply
    and commit primitives, the automatic resolver and the editor. *)
Definition is_mutation (ev : event) : bool :=
  match ev with
  | EvCherrypick _ _ _ | EvCommitChanges _ | EvAutoFixConflicts _ _ _
  | EvSpawn _ _ _ => true
  | _ => false
  end.

(** The events [listConflictingAndUnstagedFiles] causes: it writes to the
    console, prompts, and reads the state of the working tree. *)
Definition is_loop_event (ev : event) : bool :=
  match ev with
  | EvConsoleLog _ | EvConfirmPrompt _ | EvGetConflictingFiles
  | EvGetUnstagedFiles => true
  | _ => false
  end.

Definition count (p : event -> bool) (t : list event) : nat :=
  List.length (filter p t).

(** ** The monad of asynchronous computations *)

Section Effects.

(** The state of everything outside the program: the working tree, the
    user, the network. *)
Context {W : Type}.

(** The result of running a computation: what it returned or threw, the
    world it left, and the events it caused. *)
Record Run (A : Type) := mkRun {
  res : exn + A;
  world : W;
  trace : list event
}.

Definition M (A : Type) : Type := W -> Run A.

Definition ret {A : Type} (a : A) : M A :=
  fun w => mkRun (inr a) w [].

Definition throw {A : Type} (e : exn) : M A :=
  fun w => mkRun (inl e) w [].

(** Events of [r] happen after the events [t]. *)
Definition after {A : Type} (t : list event) (r : Run A) : Run A :=
  mkRun (res r) (world r) (t ++ trace r).

(** [await m] followed by the rest of the function. *)
Definition bind {A B : Type} (m : M A) (k : A -> M B) : M B :=
  fun w =>
    let r := m w in
    match res r with
    | inl e => mkRun (inl e) (world r) (trace r)
    | inr a => after (trace r) (k a (world r))
    end.

(** [try { m } catch (e) { h e }]. *)
Definition try_catch {A : Type} (m : M A) (h : exn -> M A) : M A :=
  fun w =>
    let r := m w in
    match res r with
    | inl e => after (trace r) (h e (world r))
    | inr _ => r
    end.

(** A call that cannot throw and returns nothing of interest. *)
Definition emit (ev : event) : M unit :=
  fun w => mkRun (inr tt) w [ev].

(** A call of a collaborator. *)
Definition call {A : Type} (ev : event) (f : W -> (exn + A) * W) : M A :=
  fun w => let (r, w') := f w in mkRun r w' [ev].

(** [await Promise.all([a, b])]: both calls are started, in this order,
    before either is awaited.  When both reject, [Promise.all] rejects with
    whichever rejected first in time; the embedding reports the first in
    the order of the array, and nothing below depends on that choice. *)
Definition promise_all2 {A B : Type} (a : M A) (b : M B) : M (A * B) :=
  fun w =>
    let ra := a w in
    let rb := b (world ra) in
    mkRun
      match res ra, res rb with
      | inl e, _ => inl e
      | inr _, inl e => inl e
      | inr x, inr y => inr (x, y)
      end
      (world rb) (trace ra ++ trace rb).

End Effects.

Arguments Run : clear implicits.
Arguments M : clear implicits.

Declare Scope js_scope.
Delimit Scope js_scope with js.
Notation "x <- m ;; k" := (bind m (fun x => k))
  (at level 61, m at next level, right associativity) : js_scope.
Notation "m ;; k" := (bind m (fun _ => k))
  (at level 61, right associativity) : js_scope.
Local Open Scope js_scope.

(** ** Configuration and collaborators *)

Section Program.

Context {W : Type}.

(** The argument object of [options.autoFixConflicts] (the [logger] field
    is the process-wide logger and is left out). *)
Record AutoFixArgs := {
  files : list string;
  directory : string;
  af_targetBranch : string
}.

(** The fields of [ValidConfigOptions] these files read. *)
Record Options := {
  interactive : bool;
  autoFixConflicts : option (AutoFixArgs -> W -> (exn + bool) * W);
  editor : option string;
  cwd : string;
  githubApiBaseUrlV3 : string;
  repoName : string;
  repoOwner : string;
  accessToken : string
}.

(** The imports of the two files.  A call takes the world, returns a
    value or throws, and leaves a world. *)
Record Env := {
  chalk_bold : string -> string;
  chalk_italic : string -> string;
  chalk_reset : string -> string;
  chalk_greenBright : string -> string;
  getFirstLine : string -> string;
  getCommitAuthor : Options -> Commit -> CommitAuthor;
  getRepoPath : Options -> string;
  cherrypick :
    Options -> string -> option TargetPullRequest -> CommitAuthor ->
    W -> (exn + CherrypickResult) * W;
  commitChanges : Options -> Commit -> CommitAuthor -> W -> (exn + unit) * W;
  getConflictingFiles : Options -> W -> (exn + ConflictingFiles) * W;
  getUnstagedFiles : Options -> W -> (exn + list string) * W;
  getCommitsWithoutBackports :
    Options -> Commit -> string -> list string ->
    W -> (exn + list CommitWithoutBackport) * W;
  confirmPrompt : string -> W -> (exn + bool) * W;
  spawnPromise : string -> list string -> string -> W -> (exn + unit) * W;
  new_Octokit : Octokit -> W -> (exn + unit) * W;
  issues_addLabels :
    Octokit -> string -> string -> nat -> list string -> W -> (exn + unit) * W
}.

Variable env : Env.

Definition consoleLog (text : string) : M W unit := emit (EvConsoleLog text).

(** [ora(interactive, text).start()]. *)
Definition ora_start (interactive : bool) (text : string) : M W Ora :=
  let spinner := {| ora_interactive := interactive; ora_text := text |} in
  emit (EvOraStart spinner) ;; ret spinner.

Definition succeed (spinner : Ora) : M W unit := emit (EvSpinnerSucceed spinner).
Definition fail (spinner : Ora) : M W unit := emit (EvSpinnerFail spinner).

(** ** [listConflictingAndUnstagedFiles] *)

Definition MAX_RETRIES : nat := 100.

Definition hasUnstagedFiles (conflictingFiles unstagedFiles : list string) : bool :=
  negb (Lodash.isEmpty (Lodash.difference unstagedFiles conflictingFiles)).

Definition hasConflictingFiles (conflictingFiles : list string) : bool :=
  negb (Lodash.isEmpty conflictingFiles).

(** The text handed to [confirmPrompt]. *)
Definition promptText (conflictingFiles unstagedFiles : list string) : string :=
  let header := chalk_reset env "Fix the following conflicts manually:" in
  let conflictSection :=
    if hasConflictingFiles conflictingFiles
    then "Conflicting files:" +++ Js.nl +++
         chalk_reset env
           (Js.join Js.nl (map (fun file => " - " +++ file) conflictingFiles))
    else EmptyString in
  let unstagedSection :=
    if hasUnstagedFiles conflictingFiles unstagedFiles
    then "Unstaged files:" +++ Js.nl +++
         chalk_reset env
           (Js.join Js.nl (map (fun file => " - " +++ file) unstagedFiles))
    else EmptyString in
  header +++ Js.nl +++ Js.nl +++ conflictSection +++ Js.nl +++
  unstagedSection +++ Js.nl +++ Js.nl +++
  "Press ENTER when the conflicts are resolved and files are staged".

Definition divider : string :=
  Js.nl +++ "----------------------------------------" +++ Js.nl.

(** Lines 190 to 192. *)
Definition dividerEvents (retries : nat) : list event :=
  if (0 <? retries)%nat then [EvConsoleLog divider] else [].

Definition retryLimitMessage : string :=
  "Maximum number of retries (" +++ Js.string_of_nat MAX_RETRIES +++ ") exceeded".

(** How one activation of [listConflictingAndUnstagedFiles] ends when it
    does not throw: at the [return] of line 186, or at the recursive call
    of line 227 with the arguments of that call. *)
Inductive Next : Type :=
| Return
| Recurse (retries : nat) (conflictingFiles unstagedFiles : list string).

(** The body of [listConflictingAndUnstagedFiles], lines 180 to 232, up
    to the recursive call. *)
Definition round (retries : nat) (options : Options)
    (conflictingFiles unstagedFiles : list string) : M W Next :=
  if negb (hasConflictingFiles conflictingFiles) &&
     negb (hasUnstagedFiles conflictingFiles unstagedFiles)
  then ret Return
  else
    (if (0 <? retries)%nat then consoleLog divider else ret tt) ;;
    didConfirm <-
      call (EvConfirmPrompt (promptText conflictingFiles unstagedFiles))
        (confirmPrompt env (promptText conflictingFiles unstagedFiles)) ;;
    if negb didConfirm
    then throw BackportError_abort_conflict_resolution_exception
    else
      (* [retries++ > MAX_RETRIES]: the comparison reads the value before
         the increment *)
      let before := retries in
      let retries := S retries in
      if (MAX_RETRIES <? before)%nat
      then throw (Error retryLimitMessage)
      else
        fresh <-
          promise_all2
            (call EvGetConflictingFiles (getConflictingFiles env options))
            (call EvGetUnstagedFiles (getUnstagedFiles env options)) ;;
        let '(_conflictingFiles, _unstagedFiles) := fresh in
        ret (Recurse retries (map absolute _conflictingFiles) _unstagedFiles).

(** Rounds left before the counter is refused. *)
Definition remaining (retries : nat) : nat := MAX_RETRIES + 2 - retries.
Arguments remaining : simpl never.

Definition inspect {A : Type} (a : A) : { b : A | a = b } :=
  exist _ a eq_refl.

(** [listConflictingAndUnstagedFiles]: [round], then the recursive call.
    The recursion is well founded because a round recurses only when its
    counter is at most [MAX_RETRIES], and with the counter plus one. *)
Equations? listConflictingAndUnstagedFiles (retries : nat) (options : Options)
    (conflictingFiles unstagedFiles : list string) (w : W) : Run W unit
    by wf (remaining retries) lt :=
  listConflictingAndUnstagedFiles retries options conflictingFiles unstagedFiles w
    with inspect (round retries options conflictingFiles unstagedFiles w) := {
    | exist _ (mkRun (inl e) w' t) _ => mkRun (inl e) w' t
    | exist _ (mkRun (inr Return) w' t) _ => mkRun (inr tt) w' t
    | exist _ (mkRun (inr (Recurse retries' conflictingFiles' unstagedFiles')) w' t) _ =>
        after t
          (listConflictingAndUnstagedFiles retries' options
             conflictingFiles' unstagedFiles' w') }.
Proof.
  match goal with H : round _ _ _ _ _ = _ |- _ => rename H into Hround end.
  unfold round, bind, call, promise_all2, after, ret, throw, consoleLog, emit
    in Hround.
  repeat (cbn [res world trace] in Hround;
    match type of Hround with
    | context [if ?b then _ else _] => destruct b eqn:?
    | context [let (_, _) := ?p in _] => destruct p eqn:?
    | context [match ?x with inl _ => _ | inr _ => _ end] => destruct x eqn:?
    end); try discriminate.
  all: injection Hround as <- _ _ _ _.
  all: match goal with H : (MAX_RETRIES <? _)%nat = false |- _ =>
         apply Nat.ltb_ge in H; unfold remaining; lia end.
Qed.

(** ** [cherrypickAndHandleConflicts] *)

Definition autoResolveText : string :=
  "Attempting to resolve conflicts automatically".

Definition hintText (targetBranch : string) : string :=
  "Hint: Before fixing the conflicts manually you should consider backporting the following pull requests to "
  +++ Js.dquote +++ targetBranch +++ Js.dquote +++ ":".

(** Lines 95 to 114: [true] stands for the [return] of line 111. *)
Definition resolveAutomatically (options : Options)
    (conflictingFiles : ConflictingFiles) (repoPath targetBranch : string)
    : M W bool :=
  match autoFixConflicts options with
  | Some autoFix =>
      autoResolveSpinner <- ora_start (interactive options) autoResolveText ;;
      let args := {| files := map absolute conflictingFiles;
                     directory := repoPath;
                     af_targetBranch := targetBranch |} in
      didAutoFix <-
        call (EvAutoFixConflicts (files args) (directory args) (af_targetBranch args))
          (autoFix args) ;;
      if didAutoFix
      then succeed autoResolveSpinner ;; ret true
      else fail autoResolveSpinner ;; ret false
  | None => ret false
  end.

(** Lines 156 to 158. *)
Definition launchEditor (options : Options) (repoPath : string) : M W unit :=
  match editor options with
  | Some ed =>
      if Js.truthy ed
      then call (EvSpawn ed [repoPath] (cwd options))
             (spawnPromise env ed [repoPath] (cwd options))
      else ret tt
  | None => ret tt
  end.

(** Lines 65 to 67. *)
Definition mergedTargetPullRequest (commit : Commit) (targetBranch : string)
    : option TargetPullRequest :=
  find (fun pr => (state pr =? "MERGED") && (branch pr =? targetBranch))
    (targetPullRequestStates commit).

(** Lines 69 to 90: the apply primitive.  [None] stands for the [return]
    of line 83. *)
Definition applyCommit (options : Options) (commit : Commit)
    (commitAuthor : CommitAuthor) (targetBranch : string)
    (cherrypickSpinner : Ora) : M W (option CherrypickResult) :=
  let mergedTargetPullRequest := mergedTargetPullRequest commit targetBranch in
  try_catch
    (r <-
       call (EvCherrypick (sha (sourceCommit commit)) mergedTargetPullRequest
               commitAuthor)
         (cherrypick env options (sha (sourceCommit commit))
            mergedTargetPullRequest commitAuthor) ;;
     if negb (needsResolving r)
     then ret None
     else fail cherrypickSpinner ;; ret (Some r))
    (fun e => fail cherrypickSpinner ;; throw e).

(** Lines 135 to 150. *)
Definition announce (repoPath targetBranch : string)
    (commitsWithoutBackports : list CommitWithoutBackport) : M W unit :=
  consoleLog
    (chalk_bold env
       (Js.nl +++ "The commit could not be backported due to conflicts"
        +++ Js.nl)) ;;
  consoleLog ("Please fix the conflicts in " +++ repoPath) ;;
  if (0 <? List.length commitsWithoutBackports)%nat
  then
    consoleLog (chalk_italic env (hintText targetBranch)) ;;
    consoleLog
      (Js.join Js.nl (map formatted commitsWithoutBackports)
       +++ Js.nl +++ Js.nl)
  else ret tt.

(** Lines 92 to 166: what happens once the cherry-pick has reported
    conflicts. *)
Definition handleConflicts (options : Options) (commit : Commit)
    (targetBranch : string) (picked : CherrypickResult) : M W unit :=
  let conflictingFiles := cr_conflictingFiles picked in
  let unstagedFiles := cr_unstagedFiles picked in
  let repoPath := getRepoPath env options in
  didAutoFix <-
    resolveAutomatically options conflictingFiles repoPath targetBranch ;;
  if didAutoFix then ret tt
  else
    let conflictingFilesRelative :=
      Js.slice0 50 (map relative conflictingFiles) in
    commitsWithoutBackports <-
      call (EvGetCommitsWithoutBackports targetBranch conflictingFilesRelative)
        (getCommitsWithoutBackports env options commit targetBranch
           conflictingFilesRelative) ;;
    if negb (interactive options)
    then throw (BackportError_merge_conflict_exception
                  commitsWithoutBackports conflictingFilesRelative)
    else
      announce repoPath targetBranch commitsWithoutBackports ;;
      launchEditor options repoPath ;;
      listConflictingAndUnstagedFiles 0 options
        (map absolute conflictingFiles) unstagedFiles.

Definition cherrypickAndHandleConflicts (options : Options) (commit : Commit)
    (commitAuthor : CommitAuthor) (targetBranch : string)
    (cherrypickSpinner : Ora) : M W unit :=
  picked <-
    applyCommit options commit commitAuthor targetBranch cherrypickSpinner ;;
  match picked with
  | None => ret tt
  | Some r => handleConflicts options commit targetBranch r
  end.

(** ** [waitForCherrypick] *)

Definition waitForCherrypick (options : Options) (commit : Commit)
    (targetBranch : string) : M W unit :=
  let spinnerText :=
    "Cherry-picking: " +++
    chalk_greenBright env (getFirstLine env (message (sourceCommit commit))) in
  cherrypickSpinner <- ora_start (interactive options) spinnerText ;;
  let commitAuthor := getCommitAuthor env options commit in
  cherrypickAndHandleConflicts options commit commitAuthor targetBranch
    cherrypickSpinner ;;
  try_catch
    (call (EvCommitChanges commitAuthor)
       (commitChanges env options commit commitAuthor) ;;
     succeed cherrypickSpinner)
    (fun e => fail cherrypickSpinner ;; throw e).

(** ** [addLabelsToPullRequest] *)

Definition addLabelsText (labels : list string) : string :=
  "Adding labels: " +++ Js.join ", " labels.

Definition addLabelsFailure (pullNumber : nat) : string :=
  "Could not add labels to PR " +++ Js.string_of_nat pullNumber.

Definition addLabelsToPullRequest (options : Options) (pullNumber : nat)
    (labels : list string) : M W unit :=
  let text := addLabelsText labels in
  emit (EvLoggerInfo text) ;;
  spinner <- ora_start (interactive options) text ;;
  try_catch
    (let octokit := {| auth := accessToken options;
                       baseUrl := githubApiBaseUrlV3 options |} in
     call (EvNewOctokit octokit) (new_Octokit env octokit) ;;
     call (EvAddLabels (repoOwner options) (repoName options) pullNumber labels)
       (issues_addLabels env octokit (repoOwner options) (repoName options)
          pullNumber labels) ;;
     succeed spinner)
    (fun e =>
       fail spinner ;;
       emit (EvLoggerError (addLabelsFailure pullNumber) e)).

(** ** Rounds of the interactive loop *)

(** One activation of [listConflictingAndUnstagedFiles]: its counter, its
    two lists, and the world it starts in. *)
Record Activation := {
  a_retries : nat;
  a_conflictingFiles : list string;
  a_unstagedFiles : list string;
  a_world : W
}.

(** The termination condition in the words of the specification:
    [conflicting = {}] and [unstaged \ conflicting = {}]. *)
Definition settled (conflicting unstaged : list string) : Prop :=
  conflicting = [] /\ forall f, In f unstaged -> In f conflicting.

(** [next_round options a b]: the activation [a] is not settled, the user
    confirms, the counter passes the check, both queries answer, and [b]
    is the recursive activation, made of the counter plus one and of the
    answers of the two queries. *)
Inductive next_round (options : Options) : Activation -> Activation -> Prop :=
| next_round_intro retries conflictingFiles unstagedFiles w w1
    _conflictingFiles w2 _unstagedFiles w3 :
    ~ settled conflictingFiles unstagedFiles ->
    confirmPrompt env (promptText conflictingFiles unstagedFiles) w
      = (inr true, w1) ->
    retries <= MAX_RETRIES ->
    getConflictingFiles env options w1 = (inr _conflictingFiles, w2) ->
    getUnstagedFiles env options w2 = (inr _unstagedFiles, w3) ->
    next_round options
      {| a_retries := retries; a_conflictingFiles := conflictingFiles;
         a_unstagedFiles := unstagedFiles; a_world := w |}
      {| a_retries := S retries;
         a_conflictingFiles := map absolute _conflictingFiles;
         a_unstagedFiles := _unstagedFiles; a_world := w3 |}.

(** Every way a round can go, read off the collaborators' answers. *)
Variant round_view (retries : nat) (options : Options)
    (conflictingFiles unstagedFiles : list string) (w : W)
    : Run W Next -> Prop :=
| view_settled :
    settled conflictingFiles unstagedFiles ->
    round_view retries options conflictingFiles unstagedFiles w
      (mkRun (inr Return) w [])
| view_prompt_throws e w1 :
    ~ settled conflictingFiles unstagedFiles ->
    confirmPrompt env (promptText conflictingFiles unstagedFiles) w
      = (inl e, w1) ->
    round_view retries options conflictingFiles unstagedFiles w
      (mkRun (inl e) w1
         (dividerEvents retries ++ [EvConfirmPrompt (promptText conflictingFiles unstagedFiles)]))
| view_declined w1 :
    ~ settled conflictingFiles unstagedFiles ->
    confirmPrompt env (promptText conflictingFiles unstagedFiles) w
      = (inr false, w1) ->
    round_view retries options conflictingFiles unstagedFiles w
      (mkRun (inl BackportError_abort_conflict_resolution_exception) w1
         (dividerEvents retries ++ [EvConfirmPrompt (promptText conflictingFiles unstagedFiles)]))
| view_limit w1 :
    ~ settled conflictingFiles unstagedFiles ->
    confirmPrompt env (promptText conflictingFiles unstagedFiles) w
      = (inr true, w1) ->
    MAX_RETRIES < retries ->
    round_view retries options conflictingFiles unstagedFiles w
      (mkRun (inl (Error retryLimitMessage)) w1
         (dividerEvents retries ++ [EvConfirmPrompt (promptText conflictingFiles unstagedFiles)]))
| view_query_throws w1 qc w2 qu w3 e :
    ~ settled conflictingFiles unstagedFiles ->
    confirmPrompt env (promptText conflictingFiles unstagedFiles) w
      = (inr true, w1) ->
    retries <= MAX_RETRIES ->
    getConflictingFiles env options w1 = (qc, w2) ->
    getUnstagedFiles env options w2 = (qu, w3) ->
    (qc = inl e \/ (exists files, qc = inr files) /\ qu = inl e) ->
    round_view retries options conflictingFiles unstagedFiles w
      (mkRun (inl e) w3
         (dividerEvents retries ++
          [EvConfirmPrompt (promptText conflictingFiles unstagedFiles);
           EvGetConflictingFiles; EvGetUnstagedFiles]))
| view_recurse w1 _conflictingFiles w2 _unstagedFiles w3 :
    ~ settled conflictingFiles unstagedFiles ->
    confirmPrompt env (promptText conflictingFiles unstagedFiles) w
      = (inr true, w1) ->
    retries <= MAX_RETRIES ->
    getConflictingFiles env options w1 = (inr _conflictingFiles, w2) ->
    getUnstagedFiles env options w2 = (inr _unstagedFiles, w3) ->
    round_view retries options conflictingFiles unstagedFiles w
      (mkRun
         (inr (Recurse (S retries) (map absolute _conflictingFiles)
                 _unstagedFiles))
         w3
         (dividerEvents retries ++
          [EvConfirmPrompt (promptText conflictingFiles unstagedFiles);
           EvGetConflictingFiles; EvGetUnstagedFiles])).

(** Zero or more rounds. *)
Inductive rounds (options : Options) : Activation -> Activation -> Prop :=
| rounds_here a : rounds options a a
| rounds_next a b c :
    next_round options a b -> rounds options b c -> rounds options a c.

Definition run_loop (options : Options) (a : Activation) : Run W unit :=
  listConflictingAndUnstagedFiles (a_retries a) options
    (a_conflictingFiles a) (a_unstagedFiles a) (a_world a).

(** The automatic resolver left the conflicts in place: there is none, or
    it answered [false]. *)
Definition autoFixDidNotResolve (options : Options) (args : AutoFixArgs)
    (w w' : W) : Prop :=
  match autoFixConflicts options with
  | None => w' = w
  | Some autoFix => autoFix args w = (inr false, w')
  end.

(** The argument the controller hands to the automatic resolver. *)
Definition autoFixArgs (options : Options) (targetBranch : string)
    (picked : CherrypickResult) : AutoFixArgs :=
  {| files := map absolute (cr_conflictingFiles picked);
     directory := getRepoPath env options;
     af_targetBranch := targetBranch |}.

(** What [announce] writes. *)
Definition announceEvents (repoPath targetBranch : string)
    (commitsWithoutBackports : list CommitWithoutBackport) : list event :=
  [EvConsoleLog
     (chalk_bold env
        (Js.nl +++ "The commit could not be backported due to conflicts"
         +++ Js.nl));
   EvConsoleLog ("Please fix the conflicts in " +++ repoPath)] ++
  (if (0 <? List.length commitsWithoutBackports)%nat
   then [EvConsoleLog (chalk_italic env (hintText targetBranch));
         EvConsoleLog
           (Js.join Js.nl (map formatted commitsWithoutBackports)
            +++ Js.nl +++ Js.nl)]
   else []).

(** The events of the automatic resolver in that case. *)
Definition autoFixEvents (options : Options) (args : AutoFixArgs)
    : list event :=
  match autoFixConflicts options with
  | None => []
  | Some _ =>
      let spinner := {| ora_interactive := interactive options;
                        ora_text := autoResolveText |} in
      [EvOraStart spinner;
       EvAutoFixConflicts (files args) (directory args) (af_targetBranch args);
       EvSpinnerFail spinner]
  end.

(** The events of the controller, in interactive mode, from the
    cherry-pick to the point where the editor is launched, when the
    automatic resolver left the conflicts in place. *)
Definition setupEvents (options : Options) (commit : Commit)
    (commitAuthor : CommitAuthor) (targetBranch : string)
    (cherrypickSpinner : Ora) (picked : CherrypickResult)
    (commitsWithoutBackports : list CommitWithoutBackport) : list event :=
  [EvCherrypick (sha (sourceCommit commit))
     (mergedTargetPullRequest commit targetBranch) commitAuthor;
   EvSpinnerFail cherrypickSpinner] ++
  autoFixEvents options (autoFixArgs options targetBranch picked) ++
  [EvGetCommitsWithoutBackports targetBranch
     (Js.slice0 50 (map relative (cr_conflictingFiles picked)))] ++
  announceEvents (getRepoPath env options) targetBranch commitsWithoutBackports.

End Program.

Arguments Options : clear implicits.
Arguments Env : clear implicits.
Arguments Activation : clear implicits.
Arguments AutoFixArgs : clear implicits.

(** ** More classes of events *)

Definition is_cherrypick (ev : event) : bool :=
  match ev with EvCherrypick _ _ _ => true | _ => false end.

Definition is_commit (ev : event) : bool :=
  match ev with EvCommitChanges _ => true | _ => false end.

Definition is_autofix (ev : event) : bool :=
  match ev with EvAutoFixConflicts _ _ _ => true | _ => false end.

Definition is_console (ev : event) : bool :=
  match ev with EvConsoleLog _ => true | _ => false end.

(** The divider of line 191. *)
Definition is_divider (ev : event) : bool :=
  match ev with
  | EvConsoleLog text => (text =? divider)%string
  | _ => false
  end.

Definition is_conflict_query (ev : event) : bool :=
  match ev with EvGetConflictingFiles => true | _ => false end.

Definition is_unstaged_query (ev : event) : bool :=
  match ev with EvGetUnstagedFiles => true | _ => false end.

Definition is_spinner_succeed (ev : event) : bool :=
  match ev with EvSpinnerSucceed _ => true | _ => false end.

Definition is_spinner_fail (ev : event) : bool :=
  match ev with EvSpinnerFail _ => true | _ => false end.

Definition is_logger_error (ev : event) : bool :=
  match ev with EvLoggerError _ _ => true | _ => false end.

Definition is_add_labels (ev : event) : bool :=
  match ev with EvAddLabels _ _ _ _ => true | _ => false end.

(** The pull request states that line 66 accepts. *)
Definition mergedInto (targetBranch : string) (pr : TargetPullRequest) : Prop :=
  state pr = "MERGED" /\ branch pr = targetBranch.

(** ** The stages of the conflict phase *)

Section Stages.

Context {W : Type} (env : Env W).
Variables (options : Options W) (commit : Commit) (commitAuthor : CommitAuthor)
  (targetBranch : string) (cherrypickSpinner : Ora).

(** The spinner [waitForCherrypick] starts (lines 26 to 29). *)
Definition orchestratorSpinner : Ora :=
  {| ora_interactive := interactive options;
     ora_text :=
       "Cherry-picking: " +++
       chalk_greenBright env (getFirstLine env (message (sourceCommit commit))) |}.

Definition applyEvent : event :=
  EvCherrypick (sha (sourceCommit commit))
    (mergedTargetPullRequest commit targetBranch) commitAuthor.

(** The traces [cherrypickAndHandleConflicts] can leave, by the stage it
    ended in: the cherry-pick (clean, or thrown), the automatic resolver
    (thrown, or resolved), the hint lookup (thrown, or the merge conflict
    error of the non-interactive mode), and manual resolution (the
    announcement, the editor if one is configured, the loop). *)
Inductive phase_shape : list event -> Prop :=
| shape_applied_cleanly :
    phase_shape [applyEvent]
| shape_apply_failed :
    phase_shape [applyEvent; EvSpinnerFail cherrypickSpinner]
| shape_resolver_ended picked autoFix ending :
    autoFixConflicts options = Some autoFix ->
    ending = [] \/
    ending = [EvSpinnerSucceed {| ora_interactive := interactive options;
                                  ora_text := autoResolveText |}] ->
    phase_shape
      ([applyEvent; EvSpinnerFail cherrypickSpinner;
        EvOraStart {| ora_interactive := interactive options;
                      ora_text := autoResolveText |};
        EvAutoFixConflicts (map absolute (cr_conflictingFiles picked))
          (getRepoPath env options) targetBranch] ++ ending)
| shape_hint_lookup_ended picked :
    phase_shape
      ([applyEvent; EvSpinnerFail cherrypickSpinner] ++
       autoFixEvents options (autoFixArgs env options targetBranch picked) ++
       [EvGetCommitsWithoutBackports targetBranch
          (Js.slice0 50 (map relative (cr_conflictingFiles picked)))])
| shape_manual picked hints launch loop :
    interactive options = true ->
    (launch = [] /\
     (editor options = None \/ editor options = Some EmptyString) \/
     exists ed,
       editor options = Some ed /\ Js.truthy ed = true /\
       launch = [EvSpawn ed [getRepoPath env options] (cwd options)]) ->
    Forall (fun ev => is_loop_event ev = true) loop ->
    phase_shape
      (setupEvents env options commit commitAuthor targetBranch
         cherrypickSpinner picked hints ++ launch ++ loop).

End Stages.

(** ** Scripted worlds

    Concrete collaborators to run the program on.  The world is the number
    of prompts the user has answered so far; the script fixes what every
    collaborator does. *)

Module Scenario.

Record Script := {
  picked : exn + CherrypickResult;
  hints : exn + list CommitWithoutBackport;
  (** the answer of the user to the prompt number [n], from 0 *)
  answers : nat -> bool;
  (** the conflicting and unstaged files after [n] answers *)
  tree : nat -> ConflictingFiles * list string;
  editorExit : exn + unit;
  committed : exn + unit;
  client : exn + unit;
  labelled : exn + unit
}.

(** chalk with colours switched off. *)
Definition plain (s : string) : string := s.

Definition scripted (s : Script) : Env nat := {|
  chalk_bold := plain;
  chalk_italic := plain;
  chalk_reset := plain;
  chalk_greenBright := plain;
  getFirstLine := fun msg => msg;
  getCommitAuthor := fun _ _ => {| name := "sqren"; email := "sqren@example.org" |};
  getRepoPath := fun _ => "/repo";
  cherrypick := fun _ _ _ _ n => (picked s, n);
  commitChanges := fun _ _ _ n => (committed s, n);
  getConflictingFiles := fun _ n => (inr (fst (tree s n)), n);
  getUnstagedFiles := fun _ n => (inr (snd (tree s n)), n);
  getCommitsWithoutBackports := fun _ _ _ _ n => (hints s, n);
  confirmPrompt := fun _ n => (inr (answers s n), S n);
  spawnPromise := fun _ _ _ n => (editorExit s, n);
  new_Octokit := fun _ n => (client s, n);
  issues_addLabels := fun _ _ _ _ _ n => (labelled s, n)
|}.

(** Options: interactive or not, an automatic resolver that answers
    [autoFix] if there is one, an editor if there is one. *)
Definition options (interactive : bool) (autoFix : option bool)
    (editor : option string) : Options nat := {|
  interactive := interactive;
  autoFixConflicts :=
    match autoFix with
    | Some b => Some (fun _ n => (inr b, n))
    | None => None
    end;
  editor := editor;
  cwd := "/home/sqren";
  githubApiBaseUrlV3 := "https://api.github.com";
  repoName := "backport";
  repoOwner := "sqren";
  accessToken := "token"
|}.

Definition file (n : nat) : ConflictingFile := {|
  absolute := "/repo/f" +++ Js.string_of_nat n;
  relative := "f" +++ Js.string_of_nat n
|}.

(** [n] conflicting files. *)
Definition conflicts (n : nat) : ConflictingFiles := map file (seq 0 n).

Definition commit : Commit := {|
  sourceCommit := {| message := "Fix the parser"; sha := "abc123" |};
  targetPullRequestStates := []
|}.

Definition author : CommitAuthor :=
  {| name := "sqren"; email := "sqren@example.org" |}.

Definition spinner : Ora :=
  {| ora_interactive := true; ora_text := "Cherry-picking: Fix the parser" |}.

Definition many_picked (n : nat) : CherrypickResult :=
  {| cr_conflictingFiles := conflicts n; cr_unstagedFiles := [];
     needsResolving := true |}.

Definition conflicted (n : nat) : exn + CherrypickResult :=
  inr (many_picked n).

(** The cherry-pick leaves [n] conflicting files, which stay in the tree
    for ever; the user answers as [answers] says. *)
Definition stuck (n : nat) (answers : nat -> bool) : Script := {|
  picked := conflicted n;
  hints := inr [];
  answers := answers;
  tree := fun _ => (conflicts n, []);
  editorExit := inr tt;
  committed := inr tt;
  client := inr tt;
  labelled := inr tt
|}.

(** The cherry-pick leaves [a.go] and [b.go] in conflict; the user fixes
    both before the first answer. *)
Definition two_files : ConflictingFiles :=
  [ {| absolute := "/repo/a.go"; relative := "a.go" |};
    {| absolute := "/repo/b.go"; relative := "b.go" |} ].

Definition two_picked : CherrypickResult :=
  {| cr_conflictingFiles := two_files; cr_unstagedFiles := [];
     needsResolving := true |}.

Definition fixed_at_once (hints : exn + list CommitWithoutBackport)
    (editorExit committed : exn + unit) : Script := {|
  picked := inr two_picked;
  hints := hints;
  answers := fun _ => true;
  tree := fun n => match n with 0 => (two_files, []) | S _ => ([], []) end;
  editorExit := editorExit;
  committed := committed;
  client := inr tt;
  labelled := inr tt
|}.

(** The GitHub API refuses the request for labels. *)
Definition api_down : Script := {|
  picked := conflicted 0;
  hints := inr [];
  answers := fun _ => true;
  tree := fun _ => ([], []);
  editorExit := inr tt;
  committed := inr tt;
  client := inr tt;
  labelled := inl (Thrown "HttpError: Not Found")
|}.

(** The user confirms the first [n] prompts and declines the next. *)
Definition confirm_first (n : nat) : nat -> bool := fun k => (k <? n)%nat.

Definition always_confirm : nat -> bool := fun _ => true.

(** Interactive mode, no automatic resolver, no editor. *)
Definition interactiveOptions : Options nat := options true None None.

(** The loop as the controller enters it when [n] files conflict, in the
    world [w]. *)
Definition entry (n w : nat) : Activation nat :=
  {| a_retries := 0; a_conflictingFiles := map absolute (conflicts n);
     a_unstagedFiles := []; a_world := w |}.

(** The activation after [k] confirmed rounds when the [n] conflicting
    files stay in the tree. *)
Definition later (n k : nat) : Activation nat :=
  {| a_retries := k; a_conflictingFiles := map absolute (conflicts n);
     a_unstagedFiles := []; a_world := k |}.

(** Collaborators that can fail inside the loop: [prompt] is what the
    prompt number [n] does, and the two queries throw after [n] answers
    when [conflictQuery n] or [unstagedQuery n] says so. *)
Definition flaky (s : Script) (prompt : nat -> exn + bool)
    (conflictQuery unstagedQuery : nat -> option exn) : Env nat := {|
  chalk_bold := plain;
  chalk_italic := plain;
  chalk_reset := plain;
  chalk_greenBright := plain;
  getFirstLine := fun msg => msg;
  getCommitAuthor := fun _ _ => author;
  getRepoPath := fun _ => "/repo";
  cherrypick := fun _ _ _ _ n => (picked s, n);
  commitChanges := fun _ _ _ n => (committed s, n);
  getConflictingFiles := fun _ n =>
    match conflictQuery n with
    | Some e => (inl e, n)
    | None => (inr (fst (tree s n)), n)
    end;
  getUnstagedFiles := fun _ n =>
    match unstagedQuery n with
    | Some e => (inl e, n)
    | None => (inr (snd (tree s n)), n)
    end;
  getCommitsWithoutBackports := fun _ _ _ _ n => (hints s, n);
  confirmPrompt := fun _ n => (prompt n, S n);
  spawnPromise := fun _ _ _ n => (editorExit s, n);
  new_Octokit := fun _ n => (client s, n);
  issues_addLabels := fun _ _ _ _ _ n => (labelled s, n)
|}.

(** The cherry-pick applies cleanly. *)
Definition clean_picked : CherrypickResult :=
  {| cr_conflictingFiles := []; cr_unstagedFiles := [];
     needsResolving := false |}.

Definition applies_cleanly (committed : exn + unit) : Script := {|
  picked := inr clean_picked;
  hints := inr [];
  answers := fun _ => true;
  tree := fun _ => ([], []);
  editorExit := inr tt;
  committed := committed;
  client := inr tt;
  labelled := inr tt
|}.

(** The cherry-pick itself fails. *)
Definition cannot_apply (e : exn) : Script := {|
  picked := inl e;
  hints := inr [];
  answers := fun _ => true;
  tree := fun _ => ([], []);
  editorExit := inr tt;
  committed := inr tt;
  client := inr tt;
  labelled := inr tt
|}.

(** Options whose automatic resolver throws. *)
Definition resolverThrows (e : exn) : Options nat := {|
  interactive := true;
  autoFixConflicts := Some (fun _ n => (inl e, n));
  editor := None;
  cwd := "/home/sqren";
  githubApiBaseUrlV3 := "https://api.github.com";
  repoName := "backport";
  repoOwner := "sqren";
  accessToken := "token"
|}.

(** A commit with pull requests for several branches. *)
Definition ported_commit : Commit := {|
  sourceCommit := {| message := "Fix the parser"; sha := "abc123" |};
  targetPullRequestStates :=
    [ {| state := "OPEN"; branch := "7.x" |};
      {| state := "MERGED"; branch := "6.8" |};
      {| state := "MERGED"; branch := "7.x" |};
      {| state := "CLOSED"; branch := "7.x" |} ]
|}.

End Scenario.

(** * Facts *)

(** ** The termination condition *)

Lemma difference_In (array values : list string) (f : string) :
  In f (Lodash.difference array values) <-> In f array /\ ~ In f values.
Proof.
  unfold Lodash.difference. rewrite filter_In, negb_true_iff.
  split; intros [Ha Hv]; split; auto.
  - intros Hin. apply not_true_iff_false in Hv. apply Hv.
    apply existsb_exists. exists f. split; [assumption | apply String.eqb_refl].
  - apply not_true_iff_false. intros Hex.
    apply existsb_exists in Hex as (g & Hg & Heq).
    apply String.eqb_eq in Heq. subst g. contradiction.
Qed.

Lemma isEmpty_nil {A : Type} (xs : list A) : Lodash.isEmpty xs = true <-> xs = [].
Proof. destruct xs; simpl; split; intros; congruence. Qed.

Lemma In_dec_string (f : string) (xs : list string) : {In f xs} + {~ In f xs}.
Proof. apply in_dec, string_dec. Qed.

Lemma difference_empty (array values : list string) :
  Lodash.isEmpty (Lodash.difference array values) = true <->
  forall f, In f array -> In f values.
Proof.
  rewrite isEmpty_nil. split.
  - intros Hnil f Hin. destruct (In_dec_string f values) as [|Hout]; [assumption|].
    assert (In f (Lodash.difference array values)) as Hd
      by (apply difference_In; auto).
    rewrite Hnil in Hd. destruct Hd.
  - intros Hsub. destruct (Lodash.difference array values) as [|f rest] eqn:Hd;
      [reflexivity|].
    assert (In f (Lodash.difference array values)) as Hin
      by (rewrite Hd; left; reflexivity).
    apply difference_In in Hin as [Ha Hv]. elim Hv. auto.
Qed.

(** The test of line 185 is the termination condition of the
    specification. *)
Lemma returns_iff_settled (conflictingFiles unstagedFiles : list string) :
  negb (hasConflictingFiles conflictingFiles) &&
  negb (hasUnstagedFiles conflictingFiles unstagedFiles) = true <->
  settled conflictingFiles unstagedFiles.
Proof.
  unfold hasConflictingFiles, hasUnstagedFiles, settled.
  rewrite andb_true_iff, !negb_involutive, isEmpty_nil, difference_empty.
  reflexivity.
Qed.

Lemma settled_dec (conflictingFiles unstagedFiles : list string) :
  {settled conflictingFiles unstagedFiles} +
  {~ settled conflictingFiles unstagedFiles}.
Proof.
  destruct (negb (hasConflictingFiles conflictingFiles) &&
            negb (hasUnstagedFiles conflictingFiles unstagedFiles)) eqn:E.
  - left. apply returns_iff_settled. assumption.
  - right. intros H. apply returns_iff_settled in H. congruence.
Qed.

Lemma unsettled_test (conflictingFiles unstagedFiles : list string) :
  ~ settled conflictingFiles unstagedFiles ->
  negb (hasConflictingFiles conflictingFiles) &&
  negb (hasUnstagedFiles conflictingFiles unstagedFiles) = false.
Proof.
  intros H. apply not_true_iff_false. intros E.
  apply H, returns_iff_settled, E.
Qed.

(** ** Counting events *)

Lemma count_app (p : event -> bool) (t1 t2 : list event) :
  count p (t1 ++ t2) = count p t1 + count p t2.
Proof. unfold count. rewrite filter_app, length_app. reflexivity. Qed.

Lemma count_none (p q : event -> bool) (t : list event) :
  (forall ev, q ev = true -> p ev = false) ->
  Forall (fun ev => q ev = true) t -> count p t = 0.
Proof.
  intros Hpq Ht. unfold count.
  induction Ht as [|ev t Hev _ IH]; simpl; [reflexivity|].
  rewrite (Hpq ev Hev). assumption.
Qed.

Lemma loop_event_not_mutation ev : is_loop_event ev = true -> is_mutation ev = false.
Proof. destruct ev; simpl; congruence. Qed.

Lemma loop_event_not_spawn ev : is_loop_event ev = true -> is_spawn ev = false.
Proof. destruct ev; simpl; congruence. Qed.

Lemma loop_event_not_hint_lookup ev :
  is_loop_event ev = true -> is_hint_lookup ev = false.
Proof. destruct ev; simpl; congruence. Qed.

(** ** One round *)

Section RoundFacts.

Context {W : Type} (env : Env W).

Lemma divider_run retries (w : W) :
  (if (0 <? retries)%nat then consoleLog divider else ret tt) w =
  mkRun (inr tt) w (dividerEvents retries).
Proof. unfold dividerEvents. destruct (0 <? retries)%nat; reflexivity. Qed.

Lemma round_cases retries options conflictingFiles unstagedFiles w :
  round_view env retries options conflictingFiles unstagedFiles w
    (round env retries options conflictingFiles unstagedFiles w).
Proof.
  unfold round.
  destruct (settled_dec conflictingFiles unstagedFiles) as [Hs|Hs].
  - rewrite (proj2 (returns_iff_settled _ _) Hs). apply view_settled, Hs.
  - rewrite (unsettled_test Hs).
    unfold bind, call, promise_all2, after, throw.
    rewrite divider_run. unfold ret. cbn [res world trace].
    destruct (confirmPrompt env _ w) as [[e|[|]] w1] eqn:Hc;
      cbn [res world trace negb].
    + eapply view_prompt_throws; eassumption.
    + destruct (Nat.ltb_spec MAX_RETRIES retries) as [Hlim|Hlim].
      * cbn [res world trace app].
        eapply view_limit; eassumption.
      * destruct (getConflictingFiles env options w1) as [qc w2] eqn:Hqc.
        cbn [res world trace app].
        destruct (getUnstagedFiles env options w2) as [qu w3] eqn:Hqu.
        cbn [res world trace app].
        destruct qc as [e|files]; [|destruct qu as [e|unstaged]];
          cbn [res world trace app].
        -- eapply view_query_throws; eauto.
        -- eapply view_query_throws; eauto.
        -- eapply view_recurse; eauto.
    + eapply view_declined; eassumption.
Qed.

(** A round that recurses is a step of [next_round]. *)
Lemma round_recurse_inv retries options conflictingFiles unstagedFiles w
    retries' conflictingFiles' unstagedFiles' w' t :
  round env retries options conflictingFiles unstagedFiles w =
    mkRun (inr (Recurse retries' conflictingFiles' unstagedFiles')) w' t ->
  next_round env options
    {| a_retries := retries; a_conflictingFiles := conflictingFiles;
       a_unstagedFiles := unstagedFiles; a_world := w |}
    {| a_retries := retries'; a_conflictingFiles := conflictingFiles';
       a_unstagedFiles := unstagedFiles'; a_world := w' |} /\
  t = dividerEvents retries ++
      [EvConfirmPrompt (promptText env conflictingFiles unstagedFiles);
       EvGetConflictingFiles; EvGetUnstagedFiles].
Proof.
  intros Hround.
  destruct (round_cases retries options conflictingFiles unstagedFiles w);
    try discriminate.
  injection Hround as <- <- <- <- <-.
  split; [econstructor; eassumption | reflexivity].
Qed.

Lemma round_return_inv retries options conflictingFiles unstagedFiles w w' t :
  round env retries options conflictingFiles unstagedFiles w =
    mkRun (inr Return) w' t ->
  settled conflictingFiles unstagedFiles /\ w' = w /\ t = [].
Proof.
  intros Hround.
  destruct (round_cases retries options conflictingFiles unstagedFiles w);
    try discriminate.
  injection Hround as <- <-. auto.
Qed.

(** The round that [next_round] describes. *)
Lemma round_next retries options conflictingFiles unstagedFiles w w1
    _conflictingFiles w2 _unstagedFiles w3 :
  ~ settled conflictingFiles unstagedFiles ->
  confirmPrompt env (promptText env conflictingFiles unstagedFiles) w
    = (inr true, w1) ->
  retries <= MAX_RETRIES ->
  getConflictingFiles env options w1 = (inr _conflictingFiles, w2) ->
  getUnstagedFiles env options w2 = (inr _unstagedFiles, w3) ->
  round env retries options conflictingFiles unstagedFiles w =
  mkRun
    (inr (Recurse (S retries) (map absolute _conflictingFiles) _unstagedFiles))
    w3
    (dividerEvents retries ++
     [EvConfirmPrompt (promptText env conflictingFiles unstagedFiles);
      EvGetConflictingFiles; EvGetUnstagedFiles]).
Proof.
  intros Hs Hc Hlim Hqc Hqu.
  destruct (round_cases retries options conflictingFiles unstagedFiles w)
    as [Hs'| | | | |];
    try contradiction; try congruence; try lia.
  all: repeat match goal with
       | H : _ \/ _ |- _ => destruct H as [->|[[? ->] ->]]
       | H1 : ?f = _, H2 : ?f = _ |- _ =>
           rewrite H1 in H2; injection H2 as <- <-
       end; try congruence.
Qed.

End RoundFacts.

(** ** The loop *)

Section LoopFacts.

Context {W : Type} (env : Env W).

Lemma loop_unfold retries options conflictingFiles unstagedFiles (w : W) :
  listConflictingAndUnstagedFiles env retries options conflictingFiles
    unstagedFiles w =
  let r := round env retries options conflictingFiles unstagedFiles w in
  match res r with
  | inl e => mkRun (inl e) (world r) (trace r)
  | inr Return => mkRun (inr tt) (world r) (trace r)
  | inr (Recurse retries' conflictingFiles' unstagedFiles') =>
      after (trace r)
        (listConflictingAndUnstagedFiles env retries' options
           conflictingFiles' unstagedFiles' (world r))
  end.
Proof.
  simp listConflictingAndUnstagedFiles.
  destruct (inspect _) as [[[e|[|retries' conflictingFiles' unstagedFiles']] w' t] Heq];
    cbn [listConflictingAndUnstagedFiles_unfold_clause_1]; cbv zeta;
    rewrite Heq; reflexivity.
Qed.

Lemma loop_settled retries options conflictingFiles unstagedFiles (w : W) :
  settled conflictingFiles unstagedFiles ->
  listConflictingAndUnstagedFiles env retries options conflictingFiles
    unstagedFiles w = mkRun (inr tt) w [].
Proof.
  intros Hs. rewrite loop_unfold. unfold round.
  rewrite (proj2 (returns_iff_settled _ _) Hs). reflexivity.
Qed.

Lemma loop_next options a b :
  next_round env options a b ->
  run_loop env options a =
  after (dividerEvents (a_retries a) ++
         [EvConfirmPrompt
            (promptText env (a_conflictingFiles a) (a_unstagedFiles a));
          EvGetConflictingFiles; EvGetUnstagedFiles])
    (run_loop env options b).
Proof.
  intros [retries conflictingFiles unstagedFiles w w1 qc w2 qu w3 Hs Hc Hlim Hqc Hqu].
  unfold run_loop at 1. cbn [a_retries a_conflictingFiles a_unstagedFiles a_world].
  rewrite loop_unfold. erewrite round_next by eassumption. reflexivity.
Qed.

(** Induction over the activations of the loop. *)
Lemma loop_ind (options : Options W) (P : Activation W -> Run W unit -> Prop) :
  (forall a, settled (a_conflictingFiles a) (a_unstagedFiles a) ->
             P a (mkRun (inr tt) (a_world a) [])) ->
  (forall a e w t,
      round env (a_retries a) options (a_conflictingFiles a)
        (a_unstagedFiles a) (a_world a) = mkRun (inl e) w t ->
      P a (mkRun (inl e) w t)) ->
  (forall a b,
      next_round env options a b ->
      P b (run_loop env options b) ->
      P a (after (dividerEvents (a_retries a) ++
                  [EvConfirmPrompt
                     (promptText env (a_conflictingFiles a) (a_unstagedFiles a));
                   EvGetConflictingFiles; EvGetUnstagedFiles])
             (run_loop env options b))) ->
  forall a, P a (run_loop env options a).
Proof.
  intros Hsettled Hthrow Hnext a.
  remember (remaining (a_retries a)) as n eqn:Hn.
  revert a Hn. induction n as [n IH] using lt_wf_ind. intros a Hn.
  destruct a as [retries conflictingFiles unstagedFiles w].
  unfold run_loop. cbn [a_retries a_conflictingFiles a_unstagedFiles a_world] in *.
  rewrite loop_unfold. cbv zeta.
  destruct (round env retries options conflictingFiles unstagedFiles w)
    as [[e|[|retries' conflictingFiles' unstagedFiles']] w' t] eqn:Hround;
    cbn [res world trace].
  - apply (Hthrow (Build_Activation retries conflictingFiles unstagedFiles w)).
    assumption.
  - apply round_return_inv in Hround as (Hs & -> & ->).
    apply (Hsettled (Build_Activation retries conflictingFiles unstagedFiles w)).
    assumption.
  - apply round_recurse_inv in Hround as [Hstep ->].
    apply (Hnext (Build_Activation retries conflictingFiles unstagedFiles w)
             (Build_Activation retries' conflictingFiles' unstagedFiles' w'));
      [assumption|].
    apply (IH (remaining retries')); [|reflexivity].
    inversion Hstep; subst. unfold remaining. lia.
Qed.

(** The loop only writes to the console, prompts and queries the tree. *)
Lemma loop_events options a :
  Forall (fun ev => is_loop_event ev = true) (trace (run_loop env options a)).
Proof.
  apply loop_ind
    with (P := fun a r => Forall (fun ev => is_loop_event ev = true) (trace r)).
  - intros. constructor.
  - intros b e w t Hround.
    destruct (round_cases env (a_retries b) options (a_conflictingFiles b)
                (a_unstagedFiles b) (a_world b));
      try discriminate; injection Hround as _ _ <-;
      apply Forall_app; split;
      try (unfold dividerEvents; destruct (0 <? _)%nat);
      repeat constructor.
  - intros b c _ IH. cbn [after trace].
    repeat (apply Forall_app; split); try assumption;
      try (unfold dividerEvents; destruct (0 <? _)%nat);
      repeat constructor.
Qed.

Lemma rounds_events options a b :
  rounds env options a b ->
  exists pre,
    run_loop env options a = after pre (run_loop env options b) /\
    Forall (fun ev => is_loop_event ev = true) pre.
Proof.
  induction 1 as [a|a b c Hstep _ (pre & Heq & Hpre)].
  - exists []. split; [|constructor].
    unfold after. destruct (run_loop env options a). reflexivity.
  - eexists. rewrite (loop_next Hstep), Heq. unfold after at 1 2 3.
    cbn [res world trace]. rewrite app_assoc. split; [reflexivity|].
    apply Forall_app; split; [|assumption].
    apply Forall_app; split;
      try (unfold dividerEvents; destruct (0 <? _)%nat);
      repeat constructor.
Qed.

(** The loop returns exactly when some round finds its snapshot settled. *)
Lemma loop_resolved_iff options a :
  res (run_loop env options a) = inr tt <->
  exists b, rounds env options a b /\
            settled (a_conflictingFiles b) (a_unstagedFiles b).
Proof.
  split.
  - apply loop_ind
      with (P := fun a r => res r = inr tt ->
              exists b, rounds env options a b /\
                        settled (a_conflictingFiles b) (a_unstagedFiles b)).
    + intros b Hs _. exists b. split; [constructor | assumption].
    + intros b e w t _ Hres. discriminate.
    + intros b c Hstep IH Hres. destruct (IH Hres) as (d & Hrounds & Hs).
      exists d. split; [econstructor; eassumption | assumption].
  - intros (b & Hrounds & Hs).
    destruct (rounds_events Hrounds) as (pre & -> & _).
    unfold run_loop. rewrite (loop_settled _ _ _ Hs). reflexivity.
Qed.

(** The counter grows by one a round and stops at [MAX_RETRIES + 1]. *)
Lemma rounds_retries options a b :
  rounds env options a b ->
  a_retries a <= a_retries b /\
  (a_retries a <= MAX_RETRIES + 1 -> a_retries b <= MAX_RETRIES + 1).
Proof.
  induction 1 as [a|a b c Hstep _ [IH1 IH2]]; [lia|].
  inversion Hstep; subst. cbn [a_retries] in *. lia.
Qed.

End LoopFacts.

(** ** The controller *)

Ltac run_monad :=
  unfold ora_start, fail, succeed, consoleLog;
  unfold bind, try_catch, call, emit, ret, throw, after;
  cbn [res world trace app negb].

Section ControllerFacts.

Context {W : Type} (env : Env W).
Variables (options : Options W) (commit : Commit) (commitAuthor : CommitAuthor)
  (targetBranch : string) (cherrypickSpinner : Ora).

Let applyEvent : event :=
  EvCherrypick (sha (sourceCommit commit))
    (mergedTargetPullRequest commit targetBranch) commitAuthor.

Let hintEvent (picked : CherrypickResult) : event :=
  EvGetCommitsWithoutBackports targetBranch
    (Js.slice0 50 (map relative (cr_conflictingFiles picked))).

Lemma applyCommit_conflict (w w1 : W) picked :
  cherrypick env options (sha (sourceCommit commit))
    (mergedTargetPullRequest commit targetBranch) commitAuthor w
    = (inr picked, w1) ->
  needsResolving picked = true ->
  applyCommit env options commit commitAuthor targetBranch cherrypickSpinner w
  = mkRun (inr (Some picked)) w1 [applyEvent; EvSpinnerFail cherrypickSpinner].
Proof.
  intros Hpick Hneeds. unfold applyCommit. run_monad.
  rewrite Hpick. cbn [res world trace app]. rewrite Hneeds. reflexivity.
Qed.

Lemma applyCommit_clean (w w1 : W) picked :
  cherrypick env options (sha (sourceCommit commit))
    (mergedTargetPullRequest commit targetBranch) commitAuthor w
    = (inr picked, w1) ->
  needsResolving picked = false ->
  applyCommit env options commit commitAuthor targetBranch cherrypickSpinner w
  = mkRun (inr None) w1 [applyEvent].
Proof.
  intros Hpick Hneeds. unfold applyCommit. run_monad.
  rewrite Hpick. cbn [res world trace app]. rewrite Hneeds. reflexivity.
Qed.

Lemma applyCommit_throws (w w1 : W) e :
  cherrypick env options (sha (sourceCommit commit))
    (mergedTargetPullRequest commit targetBranch) commitAuthor w
    = (inl e, w1) ->
  applyCommit env options commit commitAuthor targetBranch cherrypickSpinner w
  = mkRun (inl e) w1 [applyEvent; EvSpinnerFail cherrypickSpinner].
Proof.
  intros Hpick. unfold applyCommit. run_monad.
  rewrite Hpick. reflexivity.
Qed.

Lemma resolveAutomatically_resolved (w w1 : W) picked autoFix :
  autoFixConflicts options = Some autoFix ->
  autoFix (autoFixArgs env options targetBranch picked) w = (inr true, w1) ->
  resolveAutomatically options (cr_conflictingFiles picked)
    (getRepoPath env options) targetBranch w
  = mkRun (inr true) w1
      (let spinner := {| ora_interactive := interactive options;
                         ora_text := autoResolveText |} in
       [EvOraStart spinner;
        EvAutoFixConflicts (map absolute (cr_conflictingFiles picked))
          (getRepoPath env options) targetBranch;
        EvSpinnerSucceed spinner]).
Proof.
  intros Hsome Hfix. unfold resolveAutomatically. rewrite Hsome. run_monad.
  unfold autoFixArgs in Hfix. rewrite Hfix. reflexivity.
Qed.

Lemma resolveAutomatically_unresolved (w w1 : W) picked :
  autoFixDidNotResolve options (autoFixArgs env options targetBranch picked) w w1 ->
  resolveAutomatically options (cr_conflictingFiles picked)
    (getRepoPath env options) targetBranch w
  = mkRun (inr false) w1
      (autoFixEvents options (autoFixArgs env options targetBranch picked)).
Proof.
  unfold autoFixDidNotResolve, autoFixEvents, resolveAutomatically.
  destruct (autoFixConflicts options) as [autoFix|].
  - intros Hfix. run_monad. unfold autoFixArgs in Hfix. rewrite Hfix.
    reflexivity.
  - intros ->. reflexivity.
Qed.

Lemma announce_run (w : W) repoPath hints :
  announce env repoPath targetBranch hints w
  = mkRun (inr tt) w (announceEvents env repoPath targetBranch hints).
Proof.
  unfold announce, announceEvents. run_monad.
  destruct (0 <? length hints)%nat; reflexivity.
Qed.

(** The editor, when one is configured, is started once with the
    repository path. *)
Lemma launchEditor_configured (w : W) ed :
  editor options = Some ed ->
  Js.truthy ed = true ->
  launchEditor env options (getRepoPath env options) w
  = mkRun (fst (spawnPromise env ed [getRepoPath env options] (cwd options) w))
      (snd (spawnPromise env ed [getRepoPath env options] (cwd options) w))
      [EvSpawn ed [getRepoPath env options] (cwd options)].
Proof.
  intros Hed Htruthy. unfold launchEditor. rewrite Hed, Htruthy. unfold call.
  destruct (spawnPromise env ed _ _ w). reflexivity.
Qed.

(** The controller up to the point where the two modes part. *)
Lemma handleConflicts_unresolved (w w1 : W) picked :
  autoFixDidNotResolve options (autoFixArgs env options targetBranch picked) w w1 ->
  handleConflicts env options commit targetBranch picked w
  = after (autoFixEvents options (autoFixArgs env options targetBranch picked))
      ((commitsWithoutBackports <-
          call (hintEvent picked)
            (getCommitsWithoutBackports env options commit targetBranch
               (Js.slice0 50 (map relative (cr_conflictingFiles picked)))) ;;
        if negb (interactive options)
        then throw (BackportError_merge_conflict_exception
                      commitsWithoutBackports
                      (Js.slice0 50 (map relative (cr_conflictingFiles picked))))
        else
          announce env (getRepoPath env options) targetBranch
            commitsWithoutBackports ;;
          launchEditor env options (getRepoPath env options) ;;
          listConflictingAndUnstagedFiles env 0 options
            (map absolute (cr_conflictingFiles picked))
            (cr_unstagedFiles picked)) w1).
Proof.
  intros Hfix. unfold handleConflicts. cbv zeta. unfold bind at 1.
  erewrite resolveAutomatically_unresolved by eassumption. reflexivity.
Qed.

Lemma cherrypickAndHandleConflicts_conflict (w w1 : W) picked :
  cherrypick env options (sha (sourceCommit commit))
    (mergedTargetPullRequest commit targetBranch) commitAuthor w
    = (inr picked, w1) ->
  needsResolving picked = true ->
  cherrypickAndHandleConflicts env options commit commitAuthor targetBranch
    cherrypickSpinner w
  = after [applyEvent; EvSpinnerFail cherrypickSpinner]
      (handleConflicts env options commit targetBranch picked w1).
Proof.
  intros Hpick Hneeds. unfold cherrypickAndHandleConflicts, bind.
  erewrite applyCommit_conflict by eassumption. reflexivity.
Qed.

End ControllerFacts.

(** * The interactive resolution loop *)

Section LoopClaims.

Context {W : Type} (env : Env W).

Lemma unsettled_loop_prompts options retries conflictingFiles unstagedFiles
    (w : W) :
  ~ settled conflictingFiles unstagedFiles ->
  exists rest,
    trace (listConflictingAndUnstagedFiles env retries options conflictingFiles
             unstagedFiles w)
    = dividerEvents retries ++
      EvConfirmPrompt (promptText env conflictingFiles unstagedFiles) :: rest.
Proof.
  intros Hs. rewrite loop_unfold. cbv zeta.
  destruct (round_cases env retries options conflictingFiles unstagedFiles w);
    try contradiction; cbn [res world trace after]; rewrite <- ?app_assoc;
    eexists; reflexivity.
Qed.

(** C1.  The loop ends in its resolved branch exactly when the snapshot of
    the current round is settled: an activation returns on the spot, with
    no prompt and no query, iff its conflicting files are empty and no
    unstaged file lies outside them; the whole loop returns iff, after
    zero or more confirmed rounds, some activation is settled; and from
    one round to the next the two lists are the answers of the two
    queries ([getConflictingFiles], mapped to absolute paths, and
    [getUnstagedFiles]), whatever lists the loop was entered with. *)
Theorem resolved_iff_current_snapshot_settled (options : Options W)
    (a : Activation W) :
  (run_loop env options a = mkRun (inr tt) (a_world a) [] <->
   a_conflictingFiles a = [] /\
   Lodash.difference (a_unstagedFiles a) (a_conflictingFiles a) = []) /\
  (res (run_loop env options a) = inr tt <->
   exists b, rounds env options a b /\
             a_conflictingFiles b = [] /\
             Lodash.difference (a_unstagedFiles b) (a_conflictingFiles b) = []) /\
  (forall b c,
      rounds env options a b -> next_round env options b c ->
      exists w1 w2 fresh,
        getConflictingFiles env options w1 = (inr fresh, w2) /\
        getUnstagedFiles env options w2 = (inr (a_unstagedFiles c), a_world c) /\
        a_conflictingFiles c = map absolute fresh /\
        a_retries c = S (a_retries b)).
Proof.
  assert (forall c u, c = [] /\ Lodash.difference u c = [] <-> settled c u)
    as Hsettled.
  { intros c u. unfold settled.
    rewrite <- difference_empty, isEmpty_nil. reflexivity. }
  split; [|split].
  - rewrite Hsettled. split.
    + intros Hrun.
      destruct (settled_dec (a_conflictingFiles a) (a_unstagedFiles a))
        as [Hs|Hs]; [assumption|].
      destruct (unsettled_loop_prompts options (a_retries a) (a_world a) Hs)
        as [rest Htrace].
      unfold run_loop in Hrun. rewrite Hrun in Htrace. cbn [trace] in Htrace.
      destruct (dividerEvents (a_retries a)); discriminate.
    + intros Hs. apply loop_settled. assumption.
  - rewrite loop_resolved_iff.
    split; intros (b & Hrounds & Hb); exists b; split; try assumption;
      apply Hsettled; assumption.
  - intros b c _ Hstep. inversion Hstep; subst.
    cbn [a_unstagedFiles a_world a_conflictingFiles a_retries].
    eauto 10.
Qed.

(** C6.  A declined prompt aborts, at every round: whatever the counter of
    that round is, the loop throws the abort error, in the world the
    prompt left; the prompt is the last event, so nothing is queried
    after it, and no event of the loop acts on the working tree. *)
Theorem decline_aborts (options : Options W) (a b : Activation W) (w' : W) :
  rounds env options a b ->
  ~ settled (a_conflictingFiles b) (a_unstagedFiles b) ->
  confirmPrompt env (promptText env (a_conflictingFiles b) (a_unstagedFiles b))
    (a_world b) = (inr false, w') ->
  let declined :=
    EvConfirmPrompt
      (promptText env (a_conflictingFiles b) (a_unstagedFiles b)) in
  res (run_loop env options a)
    = inl BackportError_abort_conflict_resolution_exception /\
  world (run_loop env options a) = w' /\
  (exists before, trace (run_loop env options a) = before ++ [declined]) /\
  trace (run_loop env options b) = dividerEvents (a_retries b) ++ [declined] /\
  count is_query (trace (run_loop env options b)) = 0 /\
  count is_mutation (trace (run_loop env options a)) = 0.
Proof.
  intros Hrounds Hs Hdecline declined.
  assert (run_loop env options b =
          mkRun (inl BackportError_abort_conflict_resolution_exception) w'
            (dividerEvents (a_retries b) ++ [declined])) as Hb.
  { unfold run_loop. rewrite loop_unfold. cbv zeta.
    destruct (round_cases env (a_retries b) options (a_conflictingFiles b)
                (a_unstagedFiles b) (a_world b));
      try contradiction; try congruence.
    replace w1 with w' by congruence. reflexivity. }
  assert (count is_mutation (trace (run_loop env options a)) = 0) as Hmutation
    by (apply count_none with (q := is_loop_event);
        [apply loop_event_not_mutation | apply loop_events]).
  destruct (rounds_events Hrounds) as (pre & Ha & _).
  rewrite Ha, Hb in *. cbn [after res world trace] in *. repeat split.
  - exists (pre ++ dividerEvents (a_retries b)). rewrite app_assoc. reflexivity.
  - unfold dividerEvents. destruct (0 <? _)%nat; reflexivity.
  - assumption.
Qed.

End LoopClaims.

Lemma resolved_iff_current_snapshot_settled_witness :
  res (run_loop
         (Scenario.scripted (Scenario.fixed_at_once (inr []) (inr tt) (inr tt)))
         Scenario.interactiveOptions
         {| a_retries := 0;
            a_conflictingFiles := map absolute Scenario.two_files;
            a_unstagedFiles := []; a_world := 0 |}) = inr tt.
Proof.
  apply (proj2 (proj1 (proj2 (resolved_iff_current_snapshot_settled _ _ _)))).
  exists {| a_retries := 1; a_conflictingFiles := map absolute [];
            a_unstagedFiles := []; a_world := 1 |}.
  split; [|split; reflexivity].
  eapply rounds_next; [|apply rounds_here].
  apply next_round_intro with (w1 := 1) (w2 := 1).
  - intros [Hnil _]. discriminate Hnil.
  - reflexivity.
  - unfold MAX_RETRIES. lia.
  - reflexivity.
  - reflexivity.
Defined.

Lemma decline_aborts_witness :
  res (run_loop (Scenario.scripted (Scenario.stuck 1 (Scenario.confirm_first 0)))
         Scenario.interactiveOptions (Scenario.entry 1 0))
  = inl BackportError_abort_conflict_resolution_exception.
Proof.
  refine (proj1 (@decline_aborts _ _ _ (Scenario.entry 1 0) (Scenario.entry 1 0)
                   1 _ _ _)).
  - apply rounds_here.
  - intros [Hnil _]. discriminate Hnil.
  - reflexivity.
Defined.

(** ** The retry counter *)



(** C2.  What the code does when conflicts remain and the user confirms
    every prompt: the error of the retry limit is thrown only at the 102nd
    confirmation, because [retries++ > MAX_RETRIES] compares the counter as
    it was before the increment.  After 101 confirmed rounds the loop
    prompts once more, and a user who declines that 102nd prompt gets the
    abort error. *)
Theorem retry_limit_at_102nd_confirmation :
  let always :=
    run_loop (Scenario.scripted (Scenario.stuck 1 Scenario.always_confirm))
      Scenario.interactiveOptions (Scenario.entry 1 0) in
  let then_decline :=
    run_loop (Scenario.scripted (Scenario.stuck 1 (Scenario.confirm_first 101)))
      Scenario.interactiveOptions (Scenario.entry 1 0) in
  res always = inl (Error "Maximum number of retries (100) exceeded") /\
  count is_confirm (trace always) = 102 /\
  res then_decline = inl BackportError_abort_conflict_resolution_exception /\
  count is_confirm (trace then_decline) = 102 /\
  world then_decline = 102.
Proof. vm_compute. repeat split. Qed.


(** What the check of line 218 does in a confirmed round: it refuses the
    round when the counter the round was entered with is above
    [MAX_RETRIES], and lets the round query the tree otherwise. *)
Lemma limit_check_reads_old_counter {W : Type} (env : Env W) options retries
    conflictingFiles unstagedFiles (w w1 : W) :
  ~ settled conflictingFiles unstagedFiles ->
  confirmPrompt env (promptText env conflictingFiles unstagedFiles) w
    = (inr true, w1) ->
  let r := round env retries options conflictingFiles unstagedFiles w in
  let prompted :=
    dividerEvents retries ++
    [EvConfirmPrompt (promptText env conflictingFiles unstagedFiles)] in
  (MAX_RETRIES < retries ->
   r = mkRun (inl (Error retryLimitMessage)) w1 prompted) /\
  (retries <= MAX_RETRIES ->
   trace r = prompted ++ [EvGetConflictingFiles; EvGetUnstagedFiles]).
Proof.
  intros Hs Hc r prompted. subst r prompted.
  destruct (round_cases env retries options conflictingFiles unstagedFiles w);
    try contradiction; try congruence.
  all: split; intros Hlim; try lia.
  - match goal with
    | H1 : confirmPrompt _ _ _ = _, H2 : confirmPrompt _ _ _ = _ |- _ =>
        rewrite H1 in H2; injection H2 as <-
    end.
    reflexivity.
  - cbn [trace]. rewrite <- app_assoc. reflexivity.
  - cbn [trace]. rewrite <- app_assoc. reflexivity.
Qed.

(** What does hold of the counter: it grows by one a round, and no round is
    entered with more than [MAX_RETRIES + 1]. *)
Lemma counter_bound {W : Type} (env : Env W) options (a b : Activation W) :
  a_retries a = 0 -> rounds env options a b -> a_retries b <= MAX_RETRIES + 1.
Proof.
  intros H0 Hrounds. apply (rounds_retries Hrounds). lia.
Qed.

(** * The controller and the orchestrator *)

Section ControllerClaims.

Context {W : Type} (env : Env W).
Variables (options : Options W) (commit : Commit) (commitAuthor : CommitAuthor)
  (targetBranch : string) (cherrypickSpinner : Ora).

Let applyEvent : event :=
  EvCherrypick (sha (sourceCommit commit))
    (mergedTargetPullRequest commit targetBranch) commitAuthor.

Lemma autoFixEvents_quiet args :
  count is_confirm (autoFixEvents options args) = 0 /\
  count is_spawn (autoFixEvents options args) = 0 /\
  count is_query (autoFixEvents options args) = 0 /\
  count is_hint_lookup (autoFixEvents options args) = 0 /\
  count is_loop_event (autoFixEvents options args) = 0.
Proof.
  unfold autoFixEvents. destruct (autoFixConflicts options);
    repeat split; reflexivity.
Qed.

Lemma announceEvents_quiet repoPath hints :
  count is_confirm (announceEvents env repoPath targetBranch hints) = 0 /\
  count is_spawn (announceEvents env repoPath targetBranch hints) = 0 /\
  count is_query (announceEvents env repoPath targetBranch hints) = 0 /\
  count is_hint_lookup (announceEvents env repoPath targetBranch hints) = 0.
Proof.
  unfold announceEvents. destruct (0 <? length hints)%nat;
    repeat split; reflexivity.
Qed.

(** C5.  When an automatic resolver is configured and answers [true] to
    the absolute paths of the conflicting files and the repository path,
    the conflict resolution phase returns at once: after the cherry-pick
    the only events are those of the resolver and its spinner; there is
    no hint lookup and no prompt. *)
Theorem auto_resolve_short_circuits (w w1 w2 : W) picked autoFix :
  cherrypick env options (sha (sourceCommit commit))
    (mergedTargetPullRequest commit targetBranch) commitAuthor w
    = (inr picked, w1) ->
  needsResolving picked = true ->
  autoFixConflicts options = Some autoFix ->
  autoFix {| files := map absolute (cr_conflictingFiles picked);
             directory := getRepoPath env options;
             af_targetBranch := targetBranch |} w1 = (inr true, w2) ->
  let r := cherrypickAndHandleConflicts env options commit commitAuthor
             targetBranch cherrypickSpinner w in
  let autoResolveSpinner :=
    {| ora_interactive := interactive options; ora_text := autoResolveText |} in
  r = mkRun (inr tt) w2
        [applyEvent; EvSpinnerFail cherrypickSpinner;
         EvOraStart autoResolveSpinner;
         EvAutoFixConflicts (map absolute (cr_conflictingFiles picked))
           (getRepoPath env options) targetBranch;
         EvSpinnerSucceed autoResolveSpinner] /\
  count is_hint_lookup (trace r) = 0 /\
  count is_confirm (trace r) = 0.
Proof.
  intros Hpick Hneeds Hsome Hfix r autoResolveSpinner.
  assert (r = mkRun (inr tt) w2
                [applyEvent; EvSpinnerFail cherrypickSpinner;
                 EvOraStart autoResolveSpinner;
                 EvAutoFixConflicts (map absolute (cr_conflictingFiles picked))
                   (getRepoPath env options) targetBranch;
                 EvSpinnerSucceed autoResolveSpinner]) as Hr.
  { subst r. erewrite cherrypickAndHandleConflicts_conflict by eassumption.
    unfold handleConflicts. cbv zeta. unfold bind at 1.
    erewrite resolveAutomatically_resolved by eassumption.
    reflexivity. }
  rewrite Hr. repeat split; reflexivity.
Qed.

(** With interactive mode off, the hint lookup is the last thing the
    controller does. *)
Lemma non_interactive_path (w w1 w2 w3 : W) picked hints :
  interactive options = false ->
  cherrypick env options (sha (sourceCommit commit))
    (mergedTargetPullRequest commit targetBranch) commitAuthor w
    = (inr picked, w1) ->
  needsResolving picked = true ->
  autoFixDidNotResolve options (autoFixArgs env options targetBranch picked)
    w1 w2 ->
  getCommitsWithoutBackports env options commit targetBranch
    (Js.slice0 50 (map relative (cr_conflictingFiles picked))) w2
    = (inr hints, w3) ->
  cherrypickAndHandleConflicts env options commit commitAuthor targetBranch
    cherrypickSpinner w
  = mkRun
      (inl (BackportError_merge_conflict_exception hints
              (firstn 50 (map relative (cr_conflictingFiles picked)))))
      w3
      ([applyEvent; EvSpinnerFail cherrypickSpinner] ++
       autoFixEvents options (autoFixArgs env options targetBranch picked) ++
       [EvGetCommitsWithoutBackports targetBranch
          (firstn 50 (map relative (cr_conflictingFiles picked)))]).
Proof.
  intros Hmode Hpick Hneeds Hfix Hhints.
  erewrite cherrypickAndHandleConflicts_conflict by eassumption.
  erewrite handleConflicts_unresolved by eassumption.
  unfold bind, call. rewrite Hhints. cbn [res world trace].
  rewrite Hmode. reflexivity.
Qed.

(** C4.  With interactive mode off, a cherry-pick that left conflicts the
    automatic resolver did not fix (there is none, or it answered
    [false]) fails with the merge conflict error, which carries the hints
    the lookup returned and the first 50 relative paths of the
    conflicting files; nothing happens after the hint lookup, so there is
    no prompt and no query of the loop. *)
Theorem non_interactive_fails_with_merge_conflict (w w1 w2 w3 : W) picked hints :
  interactive options = false ->
  cherrypick env options (sha (sourceCommit commit))
    (mergedTargetPullRequest commit targetBranch) commitAuthor w
    = (inr picked, w1) ->
  needsResolving picked = true ->
  autoFixDidNotResolve options (autoFixArgs env options targetBranch picked)
    w1 w2 ->
  getCommitsWithoutBackports env options commit targetBranch
    (Js.slice0 50 (map relative (cr_conflictingFiles picked))) w2
    = (inr hints, w3) ->
  let r := cherrypickAndHandleConflicts env options commit commitAuthor
             targetBranch cherrypickSpinner w in
  let conflictingFilesRelative :=
    firstn 50 (map relative (cr_conflictingFiles picked)) in
  r = mkRun
        (inl (BackportError_merge_conflict_exception hints
                conflictingFilesRelative))
        w3
        ([applyEvent; EvSpinnerFail cherrypickSpinner] ++
         autoFixEvents options (autoFixArgs env options targetBranch picked) ++
         [EvGetCommitsWithoutBackports targetBranch conflictingFilesRelative]) /\
  count is_confirm (trace r) = 0 /\
  count is_query (trace r) = 0 /\
  count is_loop_event (trace r) = 0.
Proof.
  intros Hmode Hpick Hneeds Hfix Hhints r conflictingFilesRelative.
  assert (r = mkRun
                (inl (BackportError_merge_conflict_exception hints
                        conflictingFilesRelative))
                w3
                ([applyEvent; EvSpinnerFail cherrypickSpinner] ++
                 autoFixEvents options
                   (autoFixArgs env options targetBranch picked) ++
                 [EvGetCommitsWithoutBackports targetBranch
                    conflictingFilesRelative])) as Hr
    by (eapply non_interactive_path; eassumption).
  rewrite Hr. cbn [trace].
  destruct (autoFixEvents_quiet (autoFixArgs env options targetBranch picked))
    as (Hc & _ & Hq & _ & Hl).
  rewrite !count_app, Hc, Hq, Hl. repeat split; reflexivity.
Qed.

End ControllerClaims.

Section InteractiveClaims.

Context {W : Type} (env : Env W).
Variables (options : Options W) (commit : Commit) (commitAuthor : CommitAuthor)
  (targetBranch : string) (cherrypickSpinner : Ora).

Lemma setupEvents_quiet picked hints :
  let setup := setupEvents env options commit commitAuthor targetBranch
                 cherrypickSpinner picked hints in
  count is_confirm setup = 0 /\ count is_spawn setup = 0 /\
  filter is_hint_lookup setup =
    [EvGetCommitsWithoutBackports targetBranch
       (Js.slice0 50 (map relative (cr_conflictingFiles picked)))].
Proof.
  unfold setupEvents, autoFixEvents, announceEvents, count.
  destruct (autoFixConflicts options); destruct (0 <? length hints)%nat;
    repeat split; reflexivity.
Qed.

(** In interactive mode the controller reaches the editor and then the
    loop, which it enters with counter 0, the absolute paths of all the
    conflicting files, and the unstaged files of the cherry-pick. *)
Lemma interactive_path (w w1 w2 w3 : W) picked hints :
  interactive options = true ->
  cherrypick env options (sha (sourceCommit commit))
    (mergedTargetPullRequest commit targetBranch) commitAuthor w
    = (inr picked, w1) ->
  needsResolving picked = true ->
  autoFixDidNotResolve options (autoFixArgs env options targetBranch picked)
    w1 w2 ->
  getCommitsWithoutBackports env options commit targetBranch
    (Js.slice0 50 (map relative (cr_conflictingFiles picked))) w2
    = (inr hints, w3) ->
  cherrypickAndHandleConflicts env options commit commitAuthor targetBranch
    cherrypickSpinner w
  = after (setupEvents env options commit commitAuthor targetBranch
             cherrypickSpinner picked hints)
      ((launchEditor env options (getRepoPath env options) ;;
        listConflictingAndUnstagedFiles env 0 options
          (map absolute (cr_conflictingFiles picked))
          (cr_unstagedFiles picked)) w3).
Proof.
  intros Hmode Hpick Hneeds Hfix Hhints.
  erewrite cherrypickAndHandleConflicts_conflict by eassumption.
  erewrite handleConflicts_unresolved by eassumption.
  unfold bind at 1, call. rewrite Hhints. cbn [res world trace].
  rewrite Hmode. cbn [negb]. unfold bind at 1. rewrite announce_run.
  cbn [res world trace]. unfold after, setupEvents. cbn [res world trace].
  rewrite <- !app_assoc. reflexivity.
Qed.

(** C8.  In interactive mode with an editor configured, a conflicted
    cherry-pick that reaches manual resolution launches the editor exactly
    once, on the repository path: no prompt comes before the launch and no
    launch comes after it, whatever the number of rounds.  The loop is
    entered only when the editor has exited, in the world the editor left;
    if the launch throws, the loop is not entered at all. *)
Theorem editor_once_before_first_prompt (w w1 w2 w3 : W) picked hints ed :
  interactive options = true ->
  editor options = Some ed ->
  Js.truthy ed = true ->
  cherrypick env options (sha (sourceCommit commit))
    (mergedTargetPullRequest commit targetBranch) commitAuthor w
    = (inr picked, w1) ->
  needsResolving picked = true ->
  autoFixDidNotResolve options (autoFixArgs env options targetBranch picked)
    w1 w2 ->
  getCommitsWithoutBackports env options commit targetBranch
    (Js.slice0 50 (map relative (cr_conflictingFiles picked))) w2
    = (inr hints, w3) ->
  let r := cherrypickAndHandleConflicts env options commit commitAuthor
             targetBranch cherrypickSpinner w in
  let launch := EvSpawn ed [getRepoPath env options] (cwd options) in
  let exited := spawnPromise env ed [getRepoPath env options] (cwd options) w3 in
  count is_spawn (trace r) = 1 /\
  exists before later,
    trace r = before ++ launch :: later /\
    count is_confirm before = 0 /\
    count is_spawn before = 0 /\
    count is_spawn later = 0 /\
    match fst exited with
    | inr _ =>
        r = after (before ++ [launch])
              (listConflictingAndUnstagedFiles env 0 options
                 (map absolute (cr_conflictingFiles picked))
                 (cr_unstagedFiles picked) (snd exited))
    | inl e => res r = inl e /\ later = []
    end.
Proof.
  intros Hmode Hed Htruthy Hpick Hneeds Hfix Hhints r launch exited.
  pose (setup := setupEvents env options commit commitAuthor targetBranch
                   cherrypickSpinner picked hints).
  pose (loop := listConflictingAndUnstagedFiles env 0 options
                  (map absolute (cr_conflictingFiles picked))
                  (cr_unstagedFiles picked) (snd exited)).
  destruct (setupEvents_quiet picked hints) as (Hconfirm & Hspawn & _).
  fold setup in Hconfirm, Hspawn.
  assert (count is_spawn (trace loop) = 0) as Hloop
    by (apply count_none with (q := is_loop_event);
        [apply loop_event_not_spawn
        | apply (loop_events env options
                   (Build_Activation 0 _ _ (snd exited)))]).
  assert (r = after setup
                (match fst exited with
                 | inr _ => after [launch] loop
                 | inl e => mkRun (inl e) (snd exited) [launch]
                 end)) as Hr.
  { subst r. erewrite interactive_path by eassumption. fold setup.
    unfold bind. erewrite launchEditor_configured by eassumption.
    fold exited launch. cbn [res world trace].
    destruct (fst exited); reflexivity. }
  destruct (fst exited) as [e|[]] eqn:Hexit.
  - rewrite Hr. cbn [after res world trace]. split.
    + rewrite count_app, Hspawn. reflexivity.
    + exists setup, []. repeat split; assumption || reflexivity.
  - rewrite Hr. cbn [after res world trace]. split.
    + rewrite count_app, Hspawn. cbn [app].
      change (launch :: trace loop) with ([launch] ++ trace loop).
      rewrite count_app, Hloop. reflexivity.
    + exists setup, (trace loop).
      repeat split; try assumption; try reflexivity.
      unfold after. cbn [res world trace]. rewrite <- app_assoc. reflexivity.
Qed.

Lemma launchEditor_events (w : W) repoPath :
  Forall (fun ev => is_spawn ev = true)
    (trace (launchEditor env options repoPath w)).
Proof.
  unfold launchEditor, call, ret.
  destruct (editor options) as [ed|]; [|constructor].
  destruct (Js.truthy ed); [|constructor].
  destruct (spawnPromise env ed _ _ w). repeat constructor.
Qed.

Lemma spawn_not_confirm ev : is_spawn ev = true -> is_confirm ev = false.
Proof. destruct ev; simpl; congruence. Qed.

Lemma spawn_not_hint_lookup ev : is_spawn ev = true -> is_hint_lookup ev = false.
Proof. destruct ev; simpl; congruence. Qed.

Lemma filter_none (p q : event -> bool) (t : list event) :
  (forall ev, q ev = true -> p ev = false) ->
  Forall (fun ev => q ev = true) t -> filter p t = [].
Proof.
  intros Hpq Ht. induction Ht as [|ev t Hev _ IH]; simpl; [reflexivity|].
  rewrite (Hpq ev Hev). assumption.
Qed.

(** C3, as the code has it.  Whatever the number of conflicting files,
    the hint lookup receives exactly their first 50 relative paths, and so
    does the merge conflict error of the non-interactive mode.  The
    interactive prompt is not capped: the first prompt lists the absolute
    paths of all the conflicting files.  The loop settles only when the
    full list of conflicting files of some round is empty. *)
Theorem display_cap_is_for_hints (w w1 w2 w3 : W) picked hints :
  cherrypick env options (sha (sourceCommit commit))
    (mergedTargetPullRequest commit targetBranch) commitAuthor w
    = (inr picked, w1) ->
  needsResolving picked = true ->
  autoFixDidNotResolve options (autoFixArgs env options targetBranch picked)
    w1 w2 ->
  getCommitsWithoutBackports env options commit targetBranch
    (Js.slice0 50 (map relative (cr_conflictingFiles picked))) w2
    = (inr hints, w3) ->
  let r := cherrypickAndHandleConflicts env options commit commitAuthor
             targetBranch cherrypickSpinner w in
  let capped := firstn 50 (map relative (cr_conflictingFiles picked)) in
  let full := map absolute (cr_conflictingFiles picked) in
  let edited := launchEditor env options (getRepoPath env options) w3 in
  filter is_hint_lookup (trace r)
    = [EvGetCommitsWithoutBackports targetBranch capped] /\
  (interactive options = false ->
   res r = inl (BackportError_merge_conflict_exception hints capped)) /\
  (interactive options = true -> res edited = inr tt ->
   cr_conflictingFiles picked <> [] ->
   exists before later,
     trace r = before ++
               EvConfirmPrompt (promptText env full (cr_unstagedFiles picked))
               :: later /\
     count is_confirm before = 0) /\
  (interactive options = true -> res r = inr tt ->
   exists b,
     rounds env options
       {| a_retries := 0; a_conflictingFiles := full;
          a_unstagedFiles := cr_unstagedFiles picked;
          a_world := world edited |} b /\
     a_conflictingFiles b = [] /\
     Lodash.difference (a_unstagedFiles b) (a_conflictingFiles b) = []).
Proof.
  intros Hpick Hneeds Hfix Hhints r capped full edited.
  pose (setup := setupEvents env options commit commitAuthor targetBranch
                   cherrypickSpinner picked hints).
  pose (entry := {| a_retries := 0; a_conflictingFiles := full;
                    a_unstagedFiles := cr_unstagedFiles picked;
                    a_world := world edited |}).
  destruct (setupEvents_quiet picked hints) as (Hconfirm & _ & Hlookup).
  fold setup in Hconfirm, Hlookup.
  destruct (interactive options) eqn:Hmode.
  - assert (r = after setup
                  (match res edited with
                   | inr _ => after (trace edited) (run_loop env options entry)
                   | inl e => mkRun (inl e) (world edited) (trace edited)
                   end)) as Hr.
    { subst r. erewrite interactive_path by eassumption. fold setup.
      unfold bind. fold edited. destruct (res edited); reflexivity. }
    assert (filter is_hint_lookup (trace edited) = []) as Hedit
      by (apply filter_none with (q := is_spawn);
          [apply spawn_not_hint_lookup | apply launchEditor_events]).
    assert (filter is_hint_lookup (trace (run_loop env options entry)) = [])
      as Hloop
      by (apply filter_none with (q := is_loop_event);
          [apply loop_event_not_hint_lookup | apply loop_events]).
    repeat split.
    + rewrite Hr. destruct (res edited); cbn [after res world trace];
        rewrite !filter_app, Hlookup, Hedit, ?Hloop; reflexivity.
    + discriminate.
    + intros _ Hedited Hfiles. rewrite Hr, Hedited.
      destruct (@unsettled_loop_prompts _ env options 0 full
                  (cr_unstagedFiles picked) (world edited)) as [later Hlater].
      { intros [Hnil _]. subst full.
        destruct (cr_conflictingFiles picked); [congruence | discriminate]. }
      exists (setup ++ trace edited), later. split.
      * cbn [after res world trace]. unfold run_loop, entry.
        cbn [a_retries a_conflictingFiles a_unstagedFiles a_world].
        rewrite Hlater. cbn [dividerEvents app].
        rewrite app_assoc. reflexivity.
      * rewrite count_app, Hconfirm.
        apply count_none with (q := is_spawn);
          [apply spawn_not_confirm | apply launchEditor_events].
    + intros _ Hres. rewrite Hr in Hres.
      destruct (res edited); [discriminate|].
      cbn [after res] in Hres.
      apply loop_resolved_iff in Hres as (b & Hrounds & Hnil & Hsub).
      exists b. repeat split; try assumption.
      apply isEmpty_nil, difference_empty. assumption.
  - assert (r = mkRun
                  (inl (BackportError_merge_conflict_exception hints capped)) w3
                  ([EvCherrypick (sha (sourceCommit commit))
                      (mergedTargetPullRequest commit targetBranch) commitAuthor;
                    EvSpinnerFail cherrypickSpinner] ++
                   autoFixEvents options
                     (autoFixArgs env options targetBranch picked) ++
                   [EvGetCommitsWithoutBackports targetBranch capped])) as Hr
      by (eapply non_interactive_path; eassumption).
    rewrite Hr. cbn [res trace]. repeat split; try discriminate.
    unfold autoFixEvents. destruct (autoFixConflicts options); reflexivity.
Qed.

End InteractiveClaims.

(** ** The orchestrator *)

Section OrchestratorClaims.

Context {W : Type} (env : Env W).
Variables (options : Options W) (commit : Commit) (targetBranch : string).

(** C9.  [waitForCherrypick] adds no error of its own.  Whatever the
    conflict resolution phase throws, which includes whatever the apply
    primitive throws, is thrown unchanged and nothing is committed; when
    the phase returns, [commitChanges] is called, and the orchestrator
    returns or throws exactly what that call returns or throws.  So every
    error of the orchestrator is an error of the phase or of the
    commit. *)
Theorem orchestrator_rethrows_unchanged (w : W) :
  let commitAuthor := getCommitAuthor env options commit in
  let cherrypickSpinner :=
    {| ora_interactive := interactive options;
       ora_text :=
         "Cherry-picking: " +++
         chalk_greenBright env
           (getFirstLine env (message (sourceCommit commit))) |} in
  let phase := cherrypickAndHandleConflicts env options commit commitAuthor
                 targetBranch cherrypickSpinner w in
  let committed := commitChanges env options commit commitAuthor (world phase) in
  let r := waitForCherrypick env options commit targetBranch w in
  (forall e, res phase = inl e ->
             res r = inl e /\ world r = world phase /\
             trace r = EvOraStart cherrypickSpinner :: trace phase) /\
  (forall e w1,
      cherrypick env options (sha (sourceCommit commit))
        (mergedTargetPullRequest commit targetBranch) commitAuthor w
        = (inl e, w1) ->
      res r = inl e) /\
  (res phase = inr tt ->
   res r = fst committed /\
   exists after_commit,
     trace r = EvOraStart cherrypickSpinner :: trace phase ++
               EvCommitChanges commitAuthor :: after_commit) /\
  (forall e, res r = inl e ->
             res phase = inl e \/ res phase = inr tt /\ fst committed = inl e).
Proof.
  intros commitAuthor cherrypickSpinner phase committed r.
  assert (r = after [EvOraStart cherrypickSpinner]
                match res phase with
                | inl e => mkRun (inl e) (world phase) (trace phase)
                | inr _ =>
                    after (trace phase ++ [EvCommitChanges commitAuthor])
                      match fst committed with
                      | inl e =>
                          mkRun (inl e) (snd committed)
                            [EvSpinnerFail cherrypickSpinner]
                      | inr _ =>
                          mkRun (inr tt) (snd committed)
                            [EvSpinnerSucceed cherrypickSpinner]
                      end
                end) as Hr.
  { subst r. unfold waitForCherrypick. cbv zeta.
    fold commitAuthor. unfold bind at 1, ora_start. run_monad.
    fold cherrypickSpinner. fold phase.
    destruct (res phase) as [e|[]]; [reflexivity|].
    cbn [res world trace]. fold committed.
    destruct committed as [[e|[]] w']; cbn [fst snd res world trace];
      rewrite <- ?app_assoc; reflexivity. }
  split; [|split; [|split]].
  - intros e Hphase. rewrite Hr, Hphase. repeat split.
  - intros e w1 Hpick. rewrite Hr.
    assert (res phase = inl e) as ->; [|reflexivity].
    subst phase. unfold cherrypickAndHandleConflicts, bind.
    erewrite applyCommit_throws by eassumption. reflexivity.
  - intros Hphase. rewrite Hr, Hphase. split.
    + cbn [after res]. destruct (fst committed) as [e|[]]; reflexivity.
    + cbn [after trace]. rewrite <- app_assoc. eexists. reflexivity.
  - intros e Hres. rewrite Hr in Hres.
    destruct (res phase) as [e'|[]]; cbn [after res] in Hres.
    + left. assumption.
    + right. split; [reflexivity|].
      destruct (fst committed) as [e'|[]]; cbn [res] in Hres;
        [assumption | discriminate].
Qed.

End OrchestratorClaims.

(** * Labels *)

Section LabelClaims.

Context {W : Type} (env : Env W).

(** C10.  [addLabelsToPullRequest] always returns normally.  When the
    construction of the client or the request throws, the exception is
    caught: the spinner is marked as failed and the error is logged, and
    these are the last two events. *)
Theorem addLabels_never_throws (options : Options W) (pullNumber : nat)
    (labels : list string) (w : W) :
  let r := addLabelsToPullRequest env options pullNumber labels w in
  let octokit := {| auth := accessToken options;
                    baseUrl := githubApiBaseUrlV3 options |} in
  let spinner := {| ora_interactive := interactive options;
                    ora_text := addLabelsText labels |} in
  let made := new_Octokit env octokit w in
  let sent := issues_addLabels env octokit (repoOwner options)
                (repoName options) pullNumber labels (snd made) in
  res r = inr tt /\
  forall e,
    fst made = inl e \/ (fst made = inr tt /\ fst sent = inl e) ->
    exists before,
      trace r = before ++
                [EvSpinnerFail spinner;
                 EvLoggerError (addLabelsFailure pullNumber) e].
Proof.
  intros r octokit spinner made sent.
  subst r. unfold addLabelsToPullRequest. cbv zeta. run_monad.
  fold octokit spinner made.
  destruct made as [[e|[]] w1] eqn:Hmade; cbn [fst snd res world trace app] in *.
  - split; [reflexivity|]. intros e' [He|[He _]]; [|discriminate].
    injection He as <-.
    exists [EvLoggerInfo (addLabelsText labels); EvOraStart spinner;
            EvNewOctokit octokit].
    reflexivity.
  - fold sent.
    destruct sent as [[e|[]] w2]; cbn [fst snd res world trace app].
    + split; [reflexivity|]. intros e' [He|[_ He]]; [discriminate|].
      injection He as <-.
      exists [EvLoggerInfo (addLabelsText labels); EvOraStart spinner;
              EvNewOctokit octokit;
              EvAddLabels (repoOwner options) (repoName options) pullNumber
                labels].
      reflexivity.
    + split; [reflexivity|]. intros e' [He|[_ He]]; discriminate.
Qed.

End LabelClaims.

(** * The claims on scripted worlds *)

Lemma auto_resolve_short_circuits_witness :
  let r := cherrypickAndHandleConflicts
             (Scenario.scripted (Scenario.stuck 2 Scenario.always_confirm))
             (Scenario.options true (Some true) (Some "code"))
             Scenario.commit Scenario.author "7.x" Scenario.spinner 0 in
  res r = inr tt /\ count is_hint_lookup (trace r) = 0 /\
  count is_confirm (trace r) = 0.
Proof.
  pose proof
    (@auto_resolve_short_circuits nat
       (Scenario.scripted (Scenario.stuck 2 Scenario.always_confirm))
       (Scenario.options true (Some true) (Some "code"))
       Scenario.commit Scenario.author "7.x" Scenario.spinner
       0 0 0 (Scenario.many_picked 2) (fun _ n => (inr true, n))
       eq_refl eq_refl eq_refl eq_refl) as [Hrun Hquiet].
  split; [rewrite Hrun; reflexivity | exact Hquiet].
Defined.

Lemma non_interactive_fails_with_merge_conflict_witness :
  res (cherrypickAndHandleConflicts
         (Scenario.scripted (Scenario.fixed_at_once (inr []) (inr tt) (inr tt)))
         (Scenario.options false None None)
         Scenario.commit Scenario.author "7.x" Scenario.spinner 0)
  = inl (BackportError_merge_conflict_exception [] ["a.go"; "b.go"]).
Proof.
  pose proof
    (@non_interactive_fails_with_merge_conflict nat
       (Scenario.scripted (Scenario.fixed_at_once (inr []) (inr tt) (inr tt)))
       (Scenario.options false None None)
       Scenario.commit Scenario.author "7.x" Scenario.spinner
       0 0 0 0 Scenario.two_picked []
       eq_refl eq_refl eq_refl eq_refl eq_refl) as [Hrun _].
  rewrite Hrun. reflexivity.
Defined.

Lemma editor_once_before_first_prompt_witness :
  count is_spawn
    (trace (cherrypickAndHandleConflicts
              (Scenario.scripted (Scenario.stuck 2 (Scenario.confirm_first 3)))
              (Scenario.options true None (Some "code"))
              Scenario.commit Scenario.author "7.x" Scenario.spinner 0)) = 1.
Proof.
  exact (proj1
    (@editor_once_before_first_prompt nat
       (Scenario.scripted (Scenario.stuck 2 (Scenario.confirm_first 3)))
       (Scenario.options true None (Some "code"))
       Scenario.commit Scenario.author "7.x" Scenario.spinner
       0 0 0 0 (Scenario.many_picked 2) [] "code"
       eq_refl eq_refl eq_refl eq_refl eq_refl eq_refl eq_refl)).
Defined.

(** C3, as the specification has it, fails.  With 75 conflicting files the
    hint lookup receives 50 relative paths, but the only prompt of the run
    lists the 75 absolute paths, and that text is not the one built from
    the 50 relative paths. *)
Lemma prompt_is_not_capped :
  let env := Scenario.scripted (Scenario.stuck 75 (Scenario.confirm_first 0)) in
  let r := cherrypickAndHandleConflicts env Scenario.interactiveOptions
             Scenario.commit Scenario.author "7.x" Scenario.spinner 0 in
  let capped := Js.slice0 50 (map relative (Scenario.conflicts 75)) in
  let full := map absolute (Scenario.conflicts 75) in
  filter is_hint_lookup (trace r)
    = [EvGetCommitsWithoutBackports "7.x" capped] /\
  filter is_confirm (trace r) = [EvConfirmPrompt (promptText env full [])] /\
  length capped = 50 /\ length full = 75 /\
  promptText env full [] <> promptText env capped [].
Proof.
  repeat split; try (vm_compute; reflexivity).
  apply String.eqb_neq. vm_compute. reflexivity.
Qed.

Lemma display_cap_is_for_hints_witness :
  let env := Scenario.scripted (Scenario.stuck 75 (Scenario.confirm_first 0)) in
  let r := cherrypickAndHandleConflicts env Scenario.interactiveOptions
             Scenario.commit Scenario.author "7.x" Scenario.spinner 0 in
  filter is_hint_lookup (trace r)
    = [EvGetCommitsWithoutBackports "7.x"
         (firstn 50 (map relative (Scenario.conflicts 75)))].
Proof.
  exact (proj1
    (@display_cap_is_for_hints nat
       (Scenario.scripted (Scenario.stuck 75 (Scenario.confirm_first 0)))
       Scenario.interactiveOptions
       Scenario.commit Scenario.author "7.x" Scenario.spinner
       0 0 0 0 (Scenario.many_picked 75) []
       eq_refl eq_refl eq_refl eq_refl)).
Defined.

Lemma orchestrator_rethrows_unchanged_witness :
  res (waitForCherrypick
         (Scenario.scripted
            (Scenario.fixed_at_once (inr []) (inr tt)
               (inl (Thrown "git commit failed"))))
         Scenario.interactiveOptions Scenario.commit "7.x" 0)
  = inl (Thrown "git commit failed").
Proof.
  refine (proj1 (proj1 (proj2 (proj2
    (@orchestrator_rethrows_unchanged nat
       (Scenario.scripted
          (Scenario.fixed_at_once (inr []) (inr tt)
             (inl (Thrown "git commit failed"))))
       Scenario.interactiveOptions Scenario.commit "7.x" 0))) _)).
  vm_compute. reflexivity.
Defined.

Lemma addLabels_never_throws_witness :
  let r := addLabelsToPullRequest (Scenario.scripted Scenario.api_down)
             Scenario.interactiveOptions 42 ["backport"; "v7.x"] 0 in
  res r = inr tt /\
  exists before,
    trace r = before ++
              [EvSpinnerFail
                 {| ora_interactive := true;
                    ora_text := "Adding labels: backport, v7.x" |};
               EvLoggerError "Could not add labels to PR 42"
                 (Thrown "HttpError: Not Found")].
Proof.
  pose proof
    (@addLabels_never_throws nat (Scenario.scripted Scenario.api_down)
       Scenario.interactiveOptions 42 ["backport"; "v7.x"] 0) as [Hres Hcaught].
  split; [exact Hres|].
  apply (Hcaught (Thrown "HttpError: Not Found")).
  right. split; reflexivity.
Defined.

(** * Further properties *)

(** ** The loop: bounds and shape of the trace *)

Lemma count_cons (p : event -> bool) (ev : event) (t : list event) :
  count p (ev :: t) = (if p ev then 1 else 0) + count p t.
Proof. unfold count. simpl. destruct (p ev); reflexivity. Qed.

Lemma count_nil (p : event -> bool) : count p [] = 0.
Proof. reflexivity. Qed.

Lemma dividerEvents_counts (retries : nat) :
  count is_confirm (dividerEvents retries) = 0 /\
  count is_query (dividerEvents retries) = 0 /\
  count is_conflict_query (dividerEvents retries) = 0 /\
  count is_unstaged_query (dividerEvents retries) = 0 /\
  count is_divider (dividerEvents retries) = (if (0 <? retries)%nat then 1 else 0) /\
  count is_console (dividerEvents retries) = (if (0 <? retries)%nat then 1 else 0).
Proof.
  unfold dividerEvents. destruct (0 <? retries)%nat; repeat split; reflexivity.
Qed.

Ltac count_events :=
  rewrite ?count_app, ?count_cons, ?count_nil;
  cbn [is_confirm is_query is_conflict_query is_unstaged_query is_console
       is_divider is_spawn is_mutation is_hint_lookup is_cherrypick is_commit
       is_autofix is_spinner_succeed is_spinner_fail is_logger_error
       is_add_labels is_loop_event].

Section LoopShape.

Context {W : Type} (env : Env W) (options : Options W).

(** The events of a round that throws: the divider if there is one, the
    prompt, and, when the prompt was confirmed under the limit, the two
    queries. *)
Lemma round_error_trace (a : Activation W) e w t :
  round env (a_retries a) options (a_conflictingFiles a) (a_unstagedFiles a)
    (a_world a) = mkRun (inl e) w t ->
  let prompted :=
    dividerEvents (a_retries a) ++
    [EvConfirmPrompt
       (promptText env (a_conflictingFiles a) (a_unstagedFiles a))] in
  t = prompted \/
  a_retries a <= MAX_RETRIES /\
  t = prompted ++ [EvGetConflictingFiles; EvGetUnstagedFiles].
Proof.
  intros Hround prompted. subst prompted.
  destruct (round_cases env (a_retries a) options (a_conflictingFiles a)
              (a_unstagedFiles a) (a_world a));
    try discriminate; injection Hround as _ _ <-; auto.
  right. split; [assumption|]. rewrite <- app_assoc. reflexivity.
Qed.

(** X1.  The loop prompts at most [MAX_RETRIES + 2 - retries] times, and at
    least room for one prompt is always left; it queries the working tree
    at most twice for each of the [MAX_RETRIES + 1 - retries] rounds that
    can pass the retry check.  Entered with counter 0 it prompts at most
    102 times and issues at most 202 queries. *)
Theorem loop_prompt_bound (a : Activation W) :
  count is_confirm (trace (run_loop env options a))
    <= Nat.max 1 (MAX_RETRIES + 2 - a_retries a) /\
  count is_query (trace (run_loop env options a))
    <= 2 * (MAX_RETRIES + 1 - a_retries a).
Proof.
  apply loop_ind
    with (P := fun a r =>
            count is_confirm (trace r)
              <= Nat.max 1 (MAX_RETRIES + 2 - a_retries a) /\
            count is_query (trace r) <= 2 * (MAX_RETRIES + 1 - a_retries a)).
  - intros b _. cbn [trace]. rewrite !count_nil. lia.
  - intros b e w t Hround. cbn [trace].
    destruct (dividerEvents_counts (a_retries b)) as (Hc & Hq & _).
    destruct (round_error_trace _ Hround) as [->|[Hlim ->]];
      count_events; rewrite Hc, Hq; unfold MAX_RETRIES in *; lia.
  - intros b c Hstep [IHc IHq]. cbn [after trace].
    destruct (dividerEvents_counts (a_retries b)) as (Hc & Hq & _).
    inversion Hstep; subst. cbn [a_retries] in *.
    count_events. rewrite Hc, Hq. unfold MAX_RETRIES in *. lia.
Qed.

(** X2.  The two queries always come together: the loop has asked for the
    conflicting files exactly as often as for the unstaged files, also when
    one of the two fails, and never more often than it has prompted. *)
Theorem queries_in_pairs (a : Activation W) :
  let t := trace (run_loop env options a) in
  count is_conflict_query t = count is_unstaged_query t /\
  count is_query t = 2 * count is_conflict_query t /\
  count is_conflict_query t <= count is_confirm t.
Proof.
  apply loop_ind
    with (P := fun a r =>
            count is_conflict_query (trace r) = count is_unstaged_query (trace r) /\
            count is_query (trace r) = 2 * count is_conflict_query (trace r) /\
            count is_conflict_query (trace r) <= count is_confirm (trace r)).
  - intros b _. cbn [trace]. rewrite !count_nil. lia.
  - intros b e w t Hround. cbn [trace].
    destruct (dividerEvents_counts (a_retries b)) as (Hc & Hq & Hcq & Huq & _).
    destruct (round_error_trace _ Hround) as [->|[Hlim ->]];
      count_events; rewrite Hc, Hq, Hcq, Huq; lia.
  - intros b c Hstep (IH1 & IH2 & IH3). cbn [after trace].
    destruct (dividerEvents_counts (a_retries b)) as (Hc & Hq & Hcq & Huq & _).
    count_events. rewrite Hc, Hq, Hcq, Huq. lia.
Qed.

(** X3.  Dividers separate prompts: every prompt of a round entered with
    a counter above 0 is preceded by one divider, and the loop writes
    nothing else to the console.  So a loop entered with counter 0 that
    prompts [n] times writes [n - 1] dividers. *)
Theorem dividers_between_prompts (a : Activation W) :
  let t := trace (run_loop env options a) in
  count is_console t = count is_divider t /\
  count is_divider t =
    if (0 <? a_retries a)%nat then count is_confirm t
    else pred (count is_confirm t).
Proof.
  apply loop_ind
    with (P := fun a r =>
            count is_console (trace r) = count is_divider (trace r) /\
            count is_divider (trace r) =
              if (0 <? a_retries a)%nat then count is_confirm (trace r)
              else pred (count is_confirm (trace r))).
  - intros b _. cbn [trace]. rewrite !count_nil.
    destruct (0 <? a_retries b)%nat; auto.
  - intros b e w t Hround. cbn [trace].
    destruct (dividerEvents_counts (a_retries b)) as (Hc & _ & _ & _ & Hd & Hl).
    destruct (round_error_trace _ Hround) as [->|[Hlim ->]];
      count_events; rewrite Hc, Hd, Hl;
      destruct (0 <? a_retries b)%nat; split; reflexivity.
  - intros b c Hstep [IH1 IH2]. cbn [after trace].
    destruct (dividerEvents_counts (a_retries b)) as (Hc & _ & _ & _ & Hd & Hl).
    inversion Hstep; subst. cbn [a_retries] in *.
    count_events. rewrite Hc, Hd, Hl, IH1, IH2.
    destruct (0 <? retries)%nat; split; reflexivity.
Qed.

End LoopShape.

(** ** The loop: failures *)

Section LoopFailures.

Context {W : Type} (env : Env W) (options : Options W).

(** X4.  A prompt that throws ends the loop with what it threw, at every
    round: nothing is caught, the prompt is the last event, and the world
    is the one the prompt left. *)
Theorem prompt_failure_ends_loop (a b : Activation W) (e : exn) (w' : W) :
  rounds env options a b ->
  ~ settled (a_conflictingFiles b) (a_unstagedFiles b) ->
  confirmPrompt env (promptText env (a_conflictingFiles b) (a_unstagedFiles b))
    (a_world b) = (inl e, w') ->
  res (run_loop env options a) = inl e /\
  world (run_loop env options a) = w' /\
  exists before,
    trace (run_loop env options a) =
    before ++
    [EvConfirmPrompt
       (promptText env (a_conflictingFiles b) (a_unstagedFiles b))].
Proof.
  intros Hrounds Hs Hprompt.
  assert (run_loop env options b =
          mkRun (inl e) w'
            (dividerEvents (a_retries b) ++
             [EvConfirmPrompt
                (promptText env (a_conflictingFiles b) (a_unstagedFiles b))]))
    as Hb.
  { unfold run_loop. rewrite loop_unfold. cbv zeta.
    destruct (round_cases env (a_retries b) options (a_conflictingFiles b)
                (a_unstagedFiles b) (a_world b));
      try contradiction; try congruence.
    match goal with
    | H : confirmPrompt _ _ _ = (inl _, _) |- _ =>
        rewrite Hprompt in H; injection H as <- <-
    end.
    reflexivity. }
  destruct (rounds_events Hrounds) as (pre & -> & _).
  rewrite Hb. cbn [after res world trace]. repeat split.
  exists (pre ++ dividerEvents (a_retries b)). rewrite app_assoc. reflexivity.
Qed.

(** X5.  A query that throws while the other one answers ends the loop
    with what it threw, at every round.  Both queries have been issued by
    then, whichever failed. *)
Theorem query_failure_ends_loop (a b : Activation W) (e : exn) (w1 w2 w3 : W)
    (qc : exn + ConflictingFiles) (qu : exn + list string) :
  rounds env options a b ->
  ~ settled (a_conflictingFiles b) (a_unstagedFiles b) ->
  confirmPrompt env (promptText env (a_conflictingFiles b) (a_unstagedFiles b))
    (a_world b) = (inr true, w1) ->
  a_retries b <= MAX_RETRIES ->
  getConflictingFiles env options w1 = (qc, w2) ->
  getUnstagedFiles env options w2 = (qu, w3) ->
  qc = inl e /\ (exists unstaged, qu = inr unstaged) \/
  (exists files, qc = inr files) /\ qu = inl e ->
  res (run_loop env options a) = inl e /\
  world (run_loop env options a) = w3 /\
  exists before,
    trace (run_loop env options a) =
    before ++ [EvGetConflictingFiles; EvGetUnstagedFiles].
Proof.
  intros Hrounds Hs Hprompt Hlim Hqc Hqu Hfail.
  assert (run_loop env options b =
          mkRun (inl e) w3
            (dividerEvents (a_retries b) ++
             [EvConfirmPrompt
                (promptText env (a_conflictingFiles b) (a_unstagedFiles b));
              EvGetConflictingFiles; EvGetUnstagedFiles])) as Hb.
  { unfold run_loop. rewrite loop_unfold. cbv zeta.
    destruct (round_cases env (a_retries b) options (a_conflictingFiles b)
                (a_unstagedFiles b) (a_world b));
      try contradiction; try congruence; try lia.
    all: repeat match goal with
         | H1 : ?f = _, H2 : ?f = _ |- _ =>
             rewrite H1 in H2; injection H2; clear H2; intros; subst
         end.
    - cbn [res world trace].
      destruct Hfail as [[? _]|[[? ?] ?]];
        repeat match goal with
               | H : _ \/ _ |- _ => destruct H as [?|[[? ?] ?]]
               end; congruence.
    - destruct Hfail as [[? _]|[_ ?]]; congruence. }
  destruct (rounds_events Hrounds) as (pre & -> & _).
  rewrite Hb. cbn [after res world trace]. repeat split.
  exists (pre ++ dividerEvents (a_retries b) ++
          [EvConfirmPrompt
             (promptText env (a_conflictingFiles b) (a_unstagedFiles b))]).
  rewrite <- !app_assoc. reflexivity.
Qed.

(** X6.  The loop throws only two errors of its own, the abort error and
    the retry limit error; every other exception it ends with was thrown
    by [confirmPrompt], [getConflictingFiles] or [getUnstagedFiles]. *)
Theorem loop_error_kinds (a : Activation W) (e : exn) :
  res (run_loop env options a) = inl e ->
  e = BackportError_abort_conflict_resolution_exception \/
  e = Error retryLimitMessage \/
  (exists text w w', confirmPrompt env text w = (inl e, w')) \/
  (exists w w', getConflictingFiles env options w = (inl e, w')) \/
  (exists w w', getUnstagedFiles env options w = (inl e, w')).
Proof.
  revert e.
  apply loop_ind
    with (P := fun a r => forall e,
            res r = inl e ->
            e = BackportError_abort_conflict_resolution_exception \/
            e = Error retryLimitMessage \/
            (exists text w w', confirmPrompt env text w = (inl e, w')) \/
            (exists w w', getConflictingFiles env options w = (inl e, w')) \/
            (exists w w', getUnstagedFiles env options w = (inl e, w'))).
  - intros b _ e He. discriminate.
  - intros b e w t Hround e' He'. cbn [res] in He'. injection He' as <-.
    destruct (round_cases env (a_retries b) options (a_conflictingFiles b)
                (a_unstagedFiles b) (a_world b));
      try discriminate; injection Hround as <- _ _.
    + right. right. left. eauto.
    + left. reflexivity.
    + right. left. reflexivity.
    + match goal with
      | H : _ \/ _ |- _ => destruct H as [->|[_ ->]]
      end.
      * right. right. right. left. eauto.
      * right. right. right. right. eauto.
  - intros b c _ IH e He. apply IH. exact He.
Qed.

(** X7.  Unstaged files that are all among the conflicting files are not
    shown: the prompt is the one for no unstaged file at all. *)
Theorem prompt_hides_unstaged_conflicts (conflictingFiles unstagedFiles : list string) :
  (forall f, In f unstagedFiles -> In f conflictingFiles) ->
  promptText env conflictingFiles unstagedFiles
  = promptText env conflictingFiles [].
Proof.
  intros Hsub. unfold promptText, hasUnstagedFiles.
  rewrite (proj2 (difference_empty unstagedFiles conflictingFiles) Hsub).
  reflexivity.
Qed.

End LoopFailures.

Lemma prompt_failure_ends_loop_witness :
  res (run_loop
         (Scenario.flaky (Scenario.stuck 1 Scenario.always_confirm)
            (fun _ => inl (Thrown "stdin closed"))
            (fun _ => None) (fun _ => None))
         Scenario.interactiveOptions (Scenario.entry 1 0))
  = inl (Thrown "stdin closed").
Proof.
  refine (proj1
    (@prompt_failure_ends_loop nat _ _ (Scenario.entry 1 0) (Scenario.entry 1 0)
       (Thrown "stdin closed") 1 _ _ _)).
  - apply rounds_here.
  - intros [Hnil _]. discriminate Hnil.
  - reflexivity.
Defined.

Lemma query_failure_ends_loop_witness :
  res (run_loop
         (Scenario.flaky (Scenario.stuck 1 Scenario.always_confirm)
            (fun _ => inr true)
            (fun _ => None)
            (fun _ => Some (Thrown "git diff failed")))
         Scenario.interactiveOptions (Scenario.entry 1 0))
  = inl (Thrown "git diff failed").
Proof.
  refine (proj1
    (@query_failure_ends_loop nat _ _ (Scenario.entry 1 0) (Scenario.entry 1 0)
       (Thrown "git diff failed") 1 1 1
       (inr (Scenario.conflicts 1)) (inl (Thrown "git diff failed"))
       _ _ _ _ _ _ _)).
  - apply rounds_here.
  - intros [Hnil _]. discriminate Hnil.
  - reflexivity.
  - unfold MAX_RETRIES. simpl. lia.
  - reflexivity.
  - reflexivity.
  - right. split; [eexists|]; reflexivity.
Defined.

Lemma loop_error_kinds_witness :
  let e := BackportError_abort_conflict_resolution_exception in
  let env := Scenario.scripted (Scenario.stuck 1 (Scenario.confirm_first 2)) in
  e = BackportError_abort_conflict_resolution_exception \/
  e = Error retryLimitMessage \/
  (exists text w w', confirmPrompt env text w = (inl e, w')) \/
  (exists w w', getConflictingFiles env Scenario.interactiveOptions w = (inl e, w')) \/
  (exists w w', getUnstagedFiles env Scenario.interactiveOptions w = (inl e, w')).
Proof.
  apply (@loop_error_kinds nat
           (Scenario.scripted (Scenario.stuck 1 (Scenario.confirm_first 2)))
           Scenario.interactiveOptions (Scenario.entry 1 0)).
  vm_compute. reflexivity.
Defined.

Lemma prompt_hides_unstaged_conflicts_witness :
  promptText (Scenario.scripted (Scenario.stuck 1 Scenario.always_confirm))
    ["/repo/a.go"; "/repo/b.go"] ["/repo/b.go"; "/repo/a.go"; "/repo/b.go"]
  = promptText (Scenario.scripted (Scenario.stuck 1 Scenario.always_confirm))
      ["/repo/a.go"; "/repo/b.go"] [].
Proof.
  apply prompt_hides_unstaged_conflicts.
  intros f Hin. simpl in *. intuition.
Defined.

(** ** The controller and the orchestrator: every path *)

Section Paths.

Context {W : Type} (env : Env W).
Variables (options : Options W) (commit : Commit) (commitAuthor : CommitAuthor)
  (targetBranch : string) (cherrypickSpinner : Ora).

Let picking (w : W) :=
  cherrypick env options (sha (sourceCommit commit))
    (mergedTargetPullRequest commit targetBranch) commitAuthor w.

Let phase (w : W) :=
  cherrypickAndHandleConflicts env options commit commitAuthor targetBranch
    cherrypickSpinner w.

Let applied : event := applyEvent commit commitAuthor targetBranch.

Let autoResolveSpinner : Ora :=
  {| ora_interactive := interactive options; ora_text := autoResolveText |}.

Lemma clean_path (w w1 : W) picked :
  picking w = (inr picked, w1) ->
  needsResolving picked = false ->
  phase w = mkRun (inr tt) w1 [applied].
Proof.
  intros Hpick Hneeds. unfold phase, cherrypickAndHandleConflicts, bind.
  erewrite applyCommit_clean by eassumption. reflexivity.
Qed.

Lemma apply_throws_path (w w1 : W) e :
  picking w = (inl e, w1) ->
  phase w = mkRun (inl e) w1 [applied; EvSpinnerFail cherrypickSpinner].
Proof.
  intros Hpick. unfold phase, cherrypickAndHandleConflicts, bind.
  erewrite applyCommit_throws by eassumption. reflexivity.
Qed.

Lemma resolver_throws_path (w w1 w2 : W) picked autoFix e :
  picking w = (inr picked, w1) ->
  needsResolving picked = true ->
  autoFixConflicts options = Some autoFix ->
  autoFix (autoFixArgs env options targetBranch picked) w1 = (inl e, w2) ->
  phase w = mkRun (inl e) w2
              [applied; EvSpinnerFail cherrypickSpinner;
               EvOraStart autoResolveSpinner;
               EvAutoFixConflicts (map absolute (cr_conflictingFiles picked))
                 (getRepoPath env options) targetBranch].
Proof.
  intros Hpick Hneeds Hsome Hfix. unfold phase.
  erewrite cherrypickAndHandleConflicts_conflict by eassumption.
  unfold handleConflicts, resolveAutomatically. rewrite Hsome. run_monad.
  unfold autoFixArgs in Hfix. rewrite Hfix. reflexivity.
Qed.

Lemma resolved_path (w w1 w2 : W) picked autoFix :
  picking w = (inr picked, w1) ->
  needsResolving picked = true ->
  autoFixConflicts options = Some autoFix ->
  autoFix (autoFixArgs env options targetBranch picked) w1 = (inr true, w2) ->
  phase w = mkRun (inr tt) w2
              [applied; EvSpinnerFail cherrypickSpinner;
               EvOraStart autoResolveSpinner;
               EvAutoFixConflicts (map absolute (cr_conflictingFiles picked))
                 (getRepoPath env options) targetBranch;
               EvSpinnerSucceed autoResolveSpinner].
Proof.
  intros Hpick Hneeds Hsome Hfix. unfold phase.
  erewrite cherrypickAndHandleConflicts_conflict by eassumption.
  unfold handleConflicts. cbv zeta. unfold bind at 1.
  erewrite resolveAutomatically_resolved by eassumption.
  reflexivity.
Qed.

Lemma hint_throws_path (w w1 w2 w3 : W) picked e :
  picking w = (inr picked, w1) ->
  needsResolving picked = true ->
  autoFixDidNotResolve options (autoFixArgs env options targetBranch picked)
    w1 w2 ->
  getCommitsWithoutBackports env options commit targetBranch
    (Js.slice0 50 (map relative (cr_conflictingFiles picked))) w2
    = (inl e, w3) ->
  phase w = mkRun (inl e) w3
              ([applied; EvSpinnerFail cherrypickSpinner] ++
               autoFixEvents options
                 (autoFixArgs env options targetBranch picked) ++
               [EvGetCommitsWithoutBackports targetBranch
                  (Js.slice0 50 (map relative (cr_conflictingFiles picked)))]).
Proof.
  intros Hpick Hneeds Hfix Hhints. unfold phase.
  erewrite cherrypickAndHandleConflicts_conflict by eassumption.
  erewrite handleConflicts_unresolved by eassumption.
  unfold bind, call. rewrite Hhints. reflexivity.
Qed.

(** The editor step: nothing happens without a truthy editor. *)
Lemma launchEditor_skipped (w : W) repoPath :
  editor options = None \/ editor options = Some EmptyString ->
  launchEditor env options repoPath w = mkRun (inr tt) w [].
Proof.
  intros [Hed|Hed]; unfold launchEditor; rewrite Hed; reflexivity.
Qed.

Lemma editor_cases :
  (editor options = None \/ editor options = Some EmptyString) \/
  exists ed, editor options = Some ed /\ Js.truthy ed = true.
Proof.
  destruct (editor options) as [[|c ed]|]; eauto.
Qed.

(** Every run of the phase ends in one of the stages of [phase_shape]. *)
Lemma phase_stages (w : W) :
  phase_shape env options commit commitAuthor targetBranch cherrypickSpinner
    (trace (phase w)).
Proof.
  destruct (picking w) as [[e|picked] w1] eqn:Hpick.
  { erewrite apply_throws_path by eassumption. apply shape_apply_failed. }
  destruct (needsResolving picked) eqn:Hneeds.
  2: { erewrite clean_path by eassumption. apply shape_applied_cleanly. }
  assert ((exists autoFix e w2,
              autoFixConflicts options = Some autoFix /\
              autoFix (autoFixArgs env options targetBranch picked) w1
                = (inl e, w2)) \/
          (exists autoFix w2,
              autoFixConflicts options = Some autoFix /\
              autoFix (autoFixArgs env options targetBranch picked) w1
                = (inr true, w2)) \/
          (exists w2,
              autoFixDidNotResolve options
                (autoFixArgs env options targetBranch picked) w1 w2))
    as [(autoFix & e & w2 & Hsome & Hfix)
       |[(autoFix & w2 & Hsome & Hfix)|(w2 & Hfix)]].
  { unfold autoFixDidNotResolve.
    destruct (autoFixConflicts options) as [autoFix|]; [|eauto].
    destruct (autoFix (autoFixArgs env options targetBranch picked) w1)
      as [[e|[|]] w2] eqn:Hfix; eauto 10. }
  - erewrite resolver_throws_path by eassumption. cbn [trace].
    apply (shape_resolver_ended env options commit commitAuthor targetBranch
             cherrypickSpinner picked (ending := []) Hsome).
    left. reflexivity.
  - erewrite resolved_path by eassumption. cbn [trace].
    apply (shape_resolver_ended env options commit commitAuthor targetBranch
             cherrypickSpinner picked
             (ending := [EvSpinnerSucceed autoResolveSpinner]) Hsome).
    right. reflexivity.
  - destruct (getCommitsWithoutBackports env options commit targetBranch
                (Js.slice0 50 (map relative (cr_conflictingFiles picked))) w2)
      as [[e|hints] w3] eqn:Hhints.
    { erewrite hint_throws_path by eassumption.
      apply shape_hint_lookup_ended. }
    destruct (interactive options) eqn:Hmode.
    2: { unfold phase.
         erewrite non_interactive_path by eassumption.
         apply shape_hint_lookup_ended. }
    unfold phase. erewrite interactive_path by eassumption.
    cbn [after trace]. unfold bind.
    destruct editor_cases as [Hnone|(ed & Hed & Htruthy)].
    + erewrite launchEditor_skipped by eassumption. cbn [res world trace after app].
      apply shape_manual with (launch := []); auto.
      apply (loop_events env options (Build_Activation 0 _ _ w3)).
    + erewrite launchEditor_configured by eassumption.
      destruct (spawnPromise env ed _ _ w3) as [[e|[]] w4];
        cbn [fst snd res world trace after].
      * rewrite <- (app_nil_r [EvSpawn ed _ _]).
        apply shape_manual; eauto.
      * change (EvSpawn ed [getRepoPath env options] (cwd options) :: ?t)
          with ([EvSpawn ed [getRepoPath env options] (cwd options)] ++ t).
        apply shape_manual; eauto.
        apply (loop_events env options (Build_Activation 0 _ _ w4)).
Qed.

End Paths.

Section ShapeCounts.

Context {W : Type} (env : Env W).
Variables (options : Options W) (commit : Commit) (commitAuthor : CommitAuthor)
  (targetBranch : string) (cherrypickSpinner : Ora).

Lemma autoFixEvents_counts args :
  let t := autoFixEvents options args in
  count is_cherrypick t = 0 /\ count is_autofix t <= 1 /\
  count is_hint_lookup t = 0 /\ count is_spawn t = 0 /\ count is_commit t = 0 /\
  count is_confirm t = 0 /\ count is_query t = 0 /\ count is_console t = 0.
Proof.
  unfold autoFixEvents. destruct (autoFixConflicts options); cbv zeta;
    count_events; repeat split; lia.
Qed.

Lemma announceEvents_counts repoPath hints :
  let t := announceEvents env repoPath targetBranch hints in
  count is_cherrypick t = 0 /\ count is_autofix t = 0 /\
  count is_hint_lookup t = 0 /\ count is_spawn t = 0 /\ count is_commit t = 0.
Proof.
  unfold announceEvents. destruct (0 <? length hints)%nat; cbv zeta;
    count_events; repeat split; lia.
Qed.

Lemma loop_events_counts (t : list event) :
  Forall (fun ev => is_loop_event ev = true) t ->
  count is_cherrypick t = 0 /\ count is_autofix t = 0 /\
  count is_hint_lookup t = 0 /\ count is_spawn t = 0 /\ count is_commit t = 0.
Proof.
  intros Ht.
  repeat split; apply count_none with (q := is_loop_event); try assumption;
    intros ev; destruct ev; simpl; congruence.
Qed.

Lemma launch_counts (launch : list event) :
  (launch = [] /\
   (editor options = None \/ editor options = Some EmptyString) \/
   exists ed,
     editor options = Some ed /\ Js.truthy ed = true /\
     launch = [EvSpawn ed [getRepoPath env options] (cwd options)]) ->
  count is_cherrypick launch = 0 /\ count is_autofix launch = 0 /\
  count is_hint_lookup launch = 0 /\ count is_spawn launch <= 1 /\
  count is_commit launch = 0 /\
  (editor options = None \/ editor options = Some EmptyString ->
   count is_spawn launch = 0).
Proof.
  intros [[-> _]|(ed & Hed & Htruthy & ->)]; count_events; repeat split; try lia.
  intros [Hnone|Hempty]; rewrite Hed in *; [discriminate|].
  injection Hempty as ->. discriminate Htruthy.
Qed.

(** In every stage, each collaborator of the phase is called at most once,
    the cherry-pick exactly once, and nothing is committed. *)
Lemma shape_once (t : list event) :
  phase_shape env options commit commitAuthor targetBranch cherrypickSpinner t ->
  count is_cherrypick t = 1 /\ count is_autofix t <= 1 /\
  count is_hint_lookup t <= 1 /\ count is_spawn t <= 1 /\ count is_commit t = 0.
Proof.
  intros [| |picked autoFix ending _ [->| ->]|picked
          |picked hints launch loop _ Hlaunch Hloop].
  1-4: unfold applyEvent; count_events; repeat split; lia.
  - destruct (autoFixEvents_counts (autoFixArgs env options targetBranch picked))
      as (H1 & H2 & H3 & H4 & H5 & _).
    unfold applyEvent. count_events. rewrite H1, H3, H4, H5. repeat split; lia.
  - destruct (autoFixEvents_counts (autoFixArgs env options targetBranch picked))
      as (H1 & H2 & H3 & H4 & H5 & _).
    destruct (announceEvents_counts (getRepoPath env options) hints)
      as (A1 & A2 & A3 & A4 & A5).
    destruct (loop_events_counts Hloop) as (L1 & L2 & L3 & L4 & L5).
    destruct (launch_counts Hlaunch) as (E1 & E2 & E3 & E4 & E5 & _).
    unfold setupEvents, applyEvent. count_events.
    rewrite H1, H3, H4, H5, A1, A2, A3, A4, A5, L1, L2, L3, L4, L5, E1, E2, E3, E5.
    repeat split; lia.
Qed.

(** With interactive mode off no stage prompts, queries the tree, launches
    the editor or writes to the console. *)
Lemma shape_non_interactive (t : list event) :
  interactive options = false ->
  phase_shape env options commit commitAuthor targetBranch cherrypickSpinner t ->
  count is_confirm t = 0 /\ count is_query t = 0 /\
  count is_spawn t = 0 /\ count is_console t = 0.
Proof.
  intros Hmode [| |picked autoFix ending _ [->| ->]|picked
               |picked hints launch loop Hon _ _]; [| | | | |congruence].
  1-4: unfold applyEvent; count_events; repeat split; lia.
  destruct (autoFixEvents_counts (autoFixArgs env options targetBranch picked))
    as (_ & _ & _ & H4 & _ & H6 & H7 & H8).
  unfold applyEvent. count_events. rewrite H4, H6, H7, H8. repeat split; lia.
Qed.

(** Without a truthy editor no stage launches anything. *)
Lemma shape_no_editor (t : list event) :
  editor options = None \/ editor options = Some EmptyString ->
  phase_shape env options commit commitAuthor targetBranch cherrypickSpinner t ->
  count is_spawn t = 0.
Proof.
  intros Hed [| |picked autoFix ending _ [->| ->]|picked
             |picked hints launch loop _ Hlaunch Hloop].
  1-4: unfold applyEvent; count_events; lia.
  - destruct (autoFixEvents_counts (autoFixArgs env options targetBranch picked))
      as (_ & _ & _ & H4 & _).
    unfold applyEvent. count_events. rewrite H4. lia.
  - destruct (autoFixEvents_counts (autoFixArgs env options targetBranch picked))
      as (_ & _ & _ & H4 & _).
    destruct (announceEvents_counts (getRepoPath env options) hints)
      as (_ & _ & _ & A4 & _).
    destruct (loop_events_counts Hloop) as (_ & _ & _ & L4 & _).
    destruct (launch_counts Hlaunch) as (_ & _ & _ & _ & _ & E6).
    unfold setupEvents, applyEvent. count_events.
    rewrite H4, A4, L4, (E6 Hed). lia.
Qed.

End ShapeCounts.

Section Orchestrator.

Context {W : Type} (env : Env W).
Variables (options : Options W) (commit : Commit) (targetBranch : string).

Let commitAuthor := getCommitAuthor env options commit.
Let cherrypickSpinner := orchestratorSpinner env options commit.
Let applied := applyEvent commit commitAuthor targetBranch.

Let phase (w : W) :=
  cherrypickAndHandleConflicts env options commit commitAuthor targetBranch
    cherrypickSpinner w.

(** What lines 42 to 49 add to the phase when it returned. *)
Let committing (w : W) : Run W unit :=
  let committed := commitChanges env options commit commitAuthor w in
  mkRun (fst committed) (snd committed)
    [EvCommitChanges commitAuthor;
     match fst committed with
     | inl _ => EvSpinnerFail cherrypickSpinner
     | inr _ => EvSpinnerSucceed cherrypickSpinner
     end].

Lemma waitForCherrypick_unfold (w : W) :
  waitForCherrypick env options commit targetBranch w =
  after [EvOraStart cherrypickSpinner]
    match res (phase w) with
    | inl e => mkRun (inl e) (world (phase w)) (trace (phase w))
    | inr _ => after (trace (phase w)) (committing (world (phase w)))
    end.
Proof.
  unfold waitForCherrypick. cbv zeta.
  fold commitAuthor. unfold bind at 1, ora_start. run_monad.
  change {| ora_interactive := interactive options;
            ora_text :=
              "Cherry-picking: " +++
              chalk_greenBright env
                (getFirstLine env (message (sourceCommit commit))) |}
    with cherrypickSpinner.
  fold (phase w).
  destruct (res (phase w)) as [e|[]]; [reflexivity|].
  cbn [res world trace]. unfold committing. cbv zeta.
  destruct (commitChanges env options commit commitAuthor (world (phase w)))
    as [[e|[]] w']; reflexivity.
Qed.

(** X8.  A cherry-pick that reports no conflict goes straight to the
    commit: the automatic resolver, the hint lookup, the editor and the
    prompt are not involved, whatever the options, and the spinner is
    marked as the commit went. *)
Theorem clean_cherrypick_commits (w w1 : W) picked :
  cherrypick env options (sha (sourceCommit commit))
    (mergedTargetPullRequest commit targetBranch) commitAuthor w
    = (inr picked, w1) ->
  needsResolving picked = false ->
  let committed := commitChanges env options commit commitAuthor w1 in
  waitForCherrypick env options commit targetBranch w =
  mkRun (fst committed) (snd committed)
    [EvOraStart cherrypickSpinner; applied; EvCommitChanges commitAuthor;
     match fst committed with
     | inl _ => EvSpinnerFail cherrypickSpinner
     | inr _ => EvSpinnerSucceed cherrypickSpinner
     end].
Proof.
  intros Hpick Hneeds committed. rewrite waitForCherrypick_unfold.
  unfold phase. erewrite clean_path by eassumption. reflexivity.
Qed.

(** X9.  When the cherry-pick itself throws, the spinner is marked as
    failed once, the exception is rethrown, and nothing else is called: no
    resolver, no hint lookup, no prompt, no commit. *)
Theorem apply_failure_stops_orchestrator (w w1 : W) (e : exn) :
  cherrypick env options (sha (sourceCommit commit))
    (mergedTargetPullRequest commit targetBranch) commitAuthor w
    = (inl e, w1) ->
  waitForCherrypick env options commit targetBranch w =
  mkRun (inl e) w1
    [EvOraStart cherrypickSpinner; applied; EvSpinnerFail cherrypickSpinner].
Proof.
  intros Hpick. rewrite waitForCherrypick_unfold.
  unfold phase. erewrite apply_throws_path by eassumption. reflexivity.
Qed.

(** X10.  An automatic resolver that throws is not caught: its exception
    leaves the orchestrator unchanged, right after the call.  The spinner
    of the resolver is neither marked as succeeded nor as failed, and there
    is no hint lookup, no prompt and no commit. *)
Theorem resolver_failure_propagates (w w1 w2 : W) picked autoFix (e : exn) :
  cherrypick env options (sha (sourceCommit commit))
    (mergedTargetPullRequest commit targetBranch) commitAuthor w
    = (inr picked, w1) ->
  needsResolving picked = true ->
  autoFixConflicts options = Some autoFix ->
  autoFix {| files := map absolute (cr_conflictingFiles picked);
             directory := getRepoPath env options;
             af_targetBranch := targetBranch |} w1 = (inl e, w2) ->
  waitForCherrypick env options commit targetBranch w =
  mkRun (inl e) w2
    [EvOraStart cherrypickSpinner; applied; EvSpinnerFail cherrypickSpinner;
     EvOraStart {| ora_interactive := interactive options;
                   ora_text := autoResolveText |};
     EvAutoFixConflicts (map absolute (cr_conflictingFiles picked))
       (getRepoPath env options) targetBranch].
Proof.
  intros Hpick Hneeds Hsome Hfix. rewrite waitForCherrypick_unfold.
  unfold phase. erewrite resolver_throws_path by eassumption. reflexivity.
Qed.

(** X11.  The hint lookup is not guarded either: when
    [getCommitsWithoutBackports] throws, in interactive mode or not, its
    exception leaves the orchestrator unchanged, and there is no
    announcement, no editor, no prompt and no commit. *)
Theorem hint_lookup_failure_propagates (w w1 w2 w3 : W) picked (e : exn) :
  cherrypick env options (sha (sourceCommit commit))
    (mergedTargetPullRequest commit targetBranch) commitAuthor w
    = (inr picked, w1) ->
  needsResolving picked = true ->
  autoFixDidNotResolve options (autoFixArgs env options targetBranch picked)
    w1 w2 ->
  getCommitsWithoutBackports env options commit targetBranch
    (Js.slice0 50 (map relative (cr_conflictingFiles picked))) w2
    = (inl e, w3) ->
  waitForCherrypick env options commit targetBranch w =
  mkRun (inl e) w3
    ([EvOraStart cherrypickSpinner; applied; EvSpinnerFail cherrypickSpinner] ++
     autoFixEvents options (autoFixArgs env options targetBranch picked) ++
     [EvGetCommitsWithoutBackports targetBranch
        (Js.slice0 50 (map relative (cr_conflictingFiles picked)))]).
Proof.
  intros Hpick Hneeds Hfix Hhints. rewrite waitForCherrypick_unfold.
  unfold phase. erewrite hint_throws_path by eassumption. reflexivity.
Qed.

(** X12.  The stages of a run, in order: the spinner is started, then come
    the events of the conflict phase, which ended in one of the stages of
    [phase_shape] (cherry-pick, automatic resolver, hint lookup, manual
    resolution with the editor before the loop); if the phase threw,
    nothing follows and its exception is the result; if it returned, the
    commit follows and then the spinner is marked as succeeded when the
    commit returned and as failed when it threw. *)
Theorem orchestrator_stages (w : W) :
  let r := waitForCherrypick env options commit targetBranch w in
  exists t ending,
    trace r = EvOraStart cherrypickSpinner :: t ++ ending /\
    phase_shape env options commit commitAuthor targetBranch cherrypickSpinner t /\
    ((exists e, res (phase w) = inl e /\ res r = inl e /\ ending = []) \/
     res (phase w) = inr tt /\ res r = inr tt /\
     ending = [EvCommitChanges commitAuthor; EvSpinnerSucceed cherrypickSpinner] \/
     exists e,
       res (phase w) = inr tt /\ res r = inl e /\
       ending = [EvCommitChanges commitAuthor; EvSpinnerFail cherrypickSpinner]).
Proof.
  cbv zeta. rewrite waitForCherrypick_unfold.
  pose proof (phase_stages env options commit commitAuthor targetBranch
                cherrypickSpinner w) as Hshape.
  fold (phase w) in Hshape.
  exists (trace (phase w)).
  destruct (res (phase w)) as [e|[]].
  - exists []. cbn [after res trace]. rewrite app_nil_r. eauto 10.
  - unfold committing. cbv zeta.
    destruct (commitChanges env options commit commitAuthor (world (phase w)))
      as [[e|[]] w']; cbn [fst snd after res world trace app];
      eexists; (split; [reflexivity|]); (split; [assumption|]); eauto 10.
Qed.

(** X13.  Each collaborator of the orchestrator is called at most once in
    a run: the cherry-pick exactly once, the automatic resolver, the hint
    lookup and the editor at most once, and the commit once if the
    conflict phase returned and not at all if it threw. *)
Theorem collaborators_at_most_once (w : W) :
  let t := trace (waitForCherrypick env options commit targetBranch w) in
  count is_cherrypick t = 1 /\
  count is_autofix t <= 1 /\
  count is_hint_lookup t <= 1 /\
  count is_spawn t <= 1 /\
  count is_commit t = match res (phase w) with inr _ => 1 | inl _ => 0 end.
Proof.
  cbv zeta. rewrite waitForCherrypick_unfold.
  destruct (shape_once
              (phase_stages env options commit commitAuthor targetBranch
                 cherrypickSpinner w)) as (H1 & H2 & H3 & H4 & H5).
  fold (phase w) in H1, H2, H3, H4, H5.
  destruct (res (phase w)) as [e|[]]; unfold committing; cbv zeta;
    cbn [after trace]; count_events;
    try destruct (fst (commitChanges env options commit commitAuthor
                         (world (phase w))));
    count_events; rewrite H1, H5; repeat split; lia.
Qed.

(** X14.  With interactive mode off a run never prompts, never queries the
    working tree, never launches the editor and never calls [consoleLog],
    whatever the collaborators answer. *)
Theorem non_interactive_never_blocks (w : W) :
  interactive options = false ->
  let t := trace (waitForCherrypick env options commit targetBranch w) in
  count is_confirm t = 0 /\ count is_query t = 0 /\
  count is_spawn t = 0 /\ count is_console t = 0.
Proof.
  intros Hmode. cbv zeta. rewrite waitForCherrypick_unfold.
  destruct (shape_non_interactive Hmode
              (phase_stages env options commit commitAuthor targetBranch
                 cherrypickSpinner w)) as (H1 & H2 & H3 & H4).
  fold (phase w) in H1, H2, H3, H4.
  destruct (res (phase w)) as [e|[]]; unfold committing; cbv zeta;
    cbn [after trace]; count_events;
    try destruct (fst (commitChanges env options commit commitAuthor
                         (world (phase w))));
    count_events; rewrite H1, H2, H3, H4; repeat split; lia.
Qed.

(** X15.  Without an editor, or with the empty string for one, nothing is
    ever launched. *)
Theorem falsy_editor_never_launched (w : W) :
  editor options = None \/ editor options = Some EmptyString ->
  count is_spawn (trace (waitForCherrypick env options commit targetBranch w)) = 0.
Proof.
  intros Hed. rewrite waitForCherrypick_unfold.
  pose proof (shape_no_editor Hed
                (phase_stages env options commit commitAuthor targetBranch
                   cherrypickSpinner w)) as Hspawn.
  unfold phase in *.
  destruct (res (cherrypickAndHandleConflicts _ _ _ _ _ _ _)) as [e|[]];
    unfold committing; cbv zeta;
    cbn [after trace]; count_events;
    try destruct (fst (commitChanges _ _ _ _ _));
    count_events; rewrite Hspawn; lia.
Qed.

End Orchestrator.

(** ** The pull request handed to the cherry-pick *)

(** X16.  [mergedTargetPullRequest] is the first pull request of the
    commit that is in state MERGED and on the target branch; it is
    undefined exactly when the commit has no such pull request.  Pull
    requests in another state or on another branch are never chosen. *)
Theorem mergedTargetPullRequest_first_match (commit : Commit)
    (targetBranch : string) :
  match mergedTargetPullRequest commit targetBranch with
  | Some pr =>
      exists before rest,
        targetPullRequestStates commit = before ++ pr :: rest /\
        mergedInto targetBranch pr /\
        forall q, In q before -> ~ mergedInto targetBranch q
  | None =>
      forall q, In q (targetPullRequestStates commit) ->
                ~ mergedInto targetBranch q
  end.
Proof.
  unfold mergedTargetPullRequest, mergedInto.
  induction (targetPullRequestStates commit) as [|pr prs IH]; cbn [find].
  - intros q [].
  - destruct ((state pr =? "MERGED")%string && (branch pr =? targetBranch)%string)
      eqn:Hpr.
    + apply andb_true_iff in Hpr as [Hstate Hbranch].
      apply String.eqb_eq in Hstate, Hbranch.
      exists [], prs. repeat split; try assumption. intros q [].
    + assert (~ (state pr = "MERGED" /\ branch pr = targetBranch)) as Hnot.
      { intros [Hstate Hbranch]. apply String.eqb_eq in Hstate, Hbranch.
        rewrite Hstate, Hbranch in Hpr. discriminate. }
      destruct (find _ prs) as [found|].
      * destruct IH as (before & rest & -> & Hfound & Hbefore).
        exists (pr :: before), rest. repeat split; try apply Hfound.
        intros q [<-|Hq]; [exact Hnot | apply Hbefore, Hq].
      * intros q [<-|Hq]; [exact Hnot | apply IH, Hq].
Qed.

(** ** Labels: what the spinner and the log show *)

Section Labels.

Context {W : Type} (env : Env W).

(** X17.  However the two calls go, [addLabelsToPullRequest] marks the
    spinner exactly once, as succeeded when both the construction of the
    client and the request returned and as failed otherwise, and logs an
    error exactly when it marks the spinner as failed.  The request is sent
    only if the client could be made, and it names the owner, the
    repository, the pull request and the labels. *)
Theorem addLabels_outcome (options : Options W) (pullNumber : nat)
    (labels : list string) (w : W) :
  let r := addLabelsToPullRequest env options pullNumber labels w in
  let octokit := {| auth := accessToken options;
                    baseUrl := githubApiBaseUrlV3 options |} in
  let made := new_Octokit env octokit w in
  let sent := issues_addLabels env octokit (repoOwner options)
                (repoName options) pullNumber labels (snd made) in
  count is_spinner_succeed (trace r) + count is_spinner_fail (trace r) = 1 /\
  count is_logger_error (trace r) = count is_spinner_fail (trace r) /\
  (count is_spinner_succeed (trace r) = 1 <->
   fst made = inr tt /\ fst sent = inr tt) /\
  filter is_add_labels (trace r) =
    match fst made with
    | inl _ => []
    | inr _ => [EvAddLabels (repoOwner options) (repoName options) pullNumber
                  labels]
    end /\
  world r = match fst made with inl _ => snd made | inr _ => snd sent end.
Proof.
  intros r octokit made sent.
  subst r. unfold addLabelsToPullRequest. cbv zeta. run_monad.
  fold octokit made.
  destruct made as [[e|[]] w1] eqn:Hmade; cbn [fst snd res world trace app] in *.
  - repeat split; try reflexivity; try discriminate.
    intros [Hfalse _]. discriminate Hfalse.
  - fold sent.
    destruct sent as [[e|[]] w2]; cbn [fst snd res world trace app];
      repeat split; try reflexivity; try discriminate.
    intros [_ Hfalse]. discriminate Hfalse.
Qed.

End Labels.

(** ** The paths on scripted worlds *)

Lemma clean_cherrypick_commits_witness :
  waitForCherrypick
    (Scenario.scripted (Scenario.applies_cleanly (inl (Thrown "nothing to commit"))))
    (Scenario.options true (Some true) (Some "code"))
    Scenario.commit "7.x" 0
  = mkRun (inl (Thrown "nothing to commit")) 0
      [EvOraStart Scenario.spinner;
       EvCherrypick "abc123" None Scenario.author;
       EvCommitChanges Scenario.author;
       EvSpinnerFail Scenario.spinner].
Proof.
  exact (@clean_cherrypick_commits nat
           (Scenario.scripted
              (Scenario.applies_cleanly (inl (Thrown "nothing to commit"))))
           (Scenario.options true (Some true) (Some "code"))
           Scenario.commit "7.x" 0 0 Scenario.clean_picked eq_refl eq_refl).
Defined.

Lemma apply_failure_stops_orchestrator_witness :
  waitForCherrypick
    (Scenario.scripted (Scenario.cannot_apply (Thrown "bad object abc123")))
    Scenario.interactiveOptions Scenario.commit "7.x" 0
  = mkRun (inl (Thrown "bad object abc123")) 0
      [EvOraStart Scenario.spinner;
       EvCherrypick "abc123" None Scenario.author;
       EvSpinnerFail Scenario.spinner].
Proof.
  exact (@apply_failure_stops_orchestrator nat
           (Scenario.scripted (Scenario.cannot_apply (Thrown "bad object abc123")))
           Scenario.interactiveOptions Scenario.commit "7.x" 0 0
           (Thrown "bad object abc123") eq_refl).
Defined.

Lemma resolver_failure_propagates_witness :
  res (waitForCherrypick
         (Scenario.scripted (Scenario.stuck 2 Scenario.always_confirm))
         (Scenario.resolverThrows (Thrown "resolver crashed"))
         Scenario.commit "7.x" 0)
  = inl (Thrown "resolver crashed").
Proof.
  rewrite (@resolver_failure_propagates nat
             (Scenario.scripted (Scenario.stuck 2 Scenario.always_confirm))
             (Scenario.resolverThrows (Thrown "resolver crashed"))
             Scenario.commit "7.x" 0 0 0 (Scenario.many_picked 2)
             (fun _ n => (inl (Thrown "resolver crashed"), n))
             (Thrown "resolver crashed") eq_refl eq_refl eq_refl eq_refl).
  reflexivity.
Defined.

Lemma hint_lookup_failure_propagates_witness :
  res (waitForCherrypick
         (Scenario.scripted
            (Scenario.fixed_at_once (inl (Thrown "rate limited")) (inr tt)
               (inr tt)))
         Scenario.interactiveOptions Scenario.commit "7.x" 0)
  = inl (Thrown "rate limited").
Proof.
  rewrite (@hint_lookup_failure_propagates nat
             (Scenario.scripted
                (Scenario.fixed_at_once (inl (Thrown "rate limited")) (inr tt)
                   (inr tt)))
             Scenario.interactiveOptions Scenario.commit "7.x" 0 0 0 0
             Scenario.two_picked (Thrown "rate limited")
             eq_refl eq_refl eq_refl eq_refl).
  reflexivity.
Defined.

Lemma non_interactive_never_blocks_witness :
  count is_confirm
    (trace (waitForCherrypick
              (Scenario.scripted (Scenario.stuck 3 Scenario.always_confirm))
              (Scenario.options false (Some false) (Some "code"))
              Scenario.commit "7.x" 0)) = 0.
Proof.
  exact (proj1
    (@non_interactive_never_blocks nat
       (Scenario.scripted (Scenario.stuck 3 Scenario.always_confirm))
       (Scenario.options false (Some false) (Some "code"))
       Scenario.commit "7.x" 0 eq_refl)).
Defined.

Lemma falsy_editor_never_launched_witness :
  count is_spawn
    (trace (waitForCherrypick
              (Scenario.scripted (Scenario.stuck 1 (Scenario.confirm_first 1)))
              (Scenario.options true None (Some EmptyString))
              Scenario.commit "7.x" 0)) = 0.
Proof.
  apply falsy_editor_never_launched. right. reflexivity.
Defined.

(** ** Runs that end before the merge conflict error or the editor *)

(** C4, as the specification has it, fails.  Interactive mode is off, the
    cherry-pick left two conflicting files and there is no automatic
    resolver, but the hint lookup throws: line 120 is not guarded, so the
    phase ends with the exception of the lookup and not with the merge
    conflict error.  There is still no prompt and no query. *)
Lemma lookup_failure_is_not_merge_conflict :
  let env :=
    Scenario.scripted
      (Scenario.fixed_at_once (inl (Thrown "rate limited")) (inr tt) (inr tt)) in
  let options := Scenario.options false None None in
  let r := cherrypickAndHandleConflicts env options Scenario.commit
             Scenario.author "7.x" Scenario.spinner 0 in
  interactive options = false /\
  cherrypick env options "abc123" None Scenario.author 0
    = (inr Scenario.two_picked, 0) /\
  needsResolving Scenario.two_picked = true /\
  autoFixDidNotResolve options
    (autoFixArgs env options "7.x" Scenario.two_picked) 0 0 /\
  res r = inl (Thrown "rate limited") /\
  (forall hints conflictingFiles,
      res r <> inl (BackportError_merge_conflict_exception hints
                      conflictingFiles)) /\
  count is_confirm (trace r) = 0 /\
  count is_query (trace r) = 0.
Proof.
  repeat split; try reflexivity.
  intros hints conflictingFiles Hres. vm_compute in Hres. discriminate Hres.
Qed.

(** C8, as the specification has it, fails.  Interactive mode is on, an
    editor is configured and the cherry-pick left two conflicting files,
    but the automatic resolver answers [true]: the phase returns at line
    111 and the editor is never launched. *)
Lemma editor_not_launched_when_auto_resolved :
  let env := Scenario.scripted (Scenario.stuck 2 Scenario.always_confirm) in
  let options := Scenario.options true (Some true) (Some "code") in
  let r := cherrypickAndHandleConflicts env options Scenario.commit
             Scenario.author "7.x" Scenario.spinner 0 in
  interactive options = true /\
  editor options = Some "code" /\
  Js.truthy "code" = true /\
  cherrypick env options "abc123" None Scenario.author 0
    = (inr (Scenario.many_picked 2), 0) /\
  needsResolving (Scenario.many_picked 2) = true /\
  res r = inr tt /\
  count is_spawn (trace r) = 0 /\
  count is_confirm (trace r) = 0.
Proof.
  repeat split; vm_compute; reflexivity.
Qed.
